(** * winston-slack-webhook: a shallow embedding of lib/winston-slack-webhook.js

    The transport keeps an exponentially decaying count of the messages it
    has handed to Slack and drops messages while that count is above
    [limitPerSecond * limitWindowSeconds].  This file embeds the transport
    object, its constructor and its five methods, and proves what the
    specification says about them.

    Modelling choices, stated once:
    - A JavaScript number is an extended real ([num]): a real, one of the two
      infinities, or NaN.  The special values follow IEEE 754 as ECMAScript
      prescribes; finite arithmetic is exact (no rounding, no overflow), and
      zero carries no sign.  What is stated over [num] is meant for the range
      in which doubles neither overflow nor underflow, and never turns on the
      last bit of a result: where the code's behaviour does turn on rounding
      (a stream sent at exactly the allowed rate), the limiter is evaluated
      again on IEEE doubles, in the module [Doubles].
    - [https.request] is taken to accept the options it is given: the errors
      it throws at once for an address it cannot use (a port out of range,
      a path with illegal characters) are outside this embedding: what is
      stated about a send is stated for a transport whose address Node
      accepts, and nothing is stated about exactly when [sendSlackLog] or
      [log] throw.
    - A [Date] is its time value, an integer number of milliseconds.
    - [new Date()] reads a clock, [https.request] appends to a trace: both are
      threaded through a state-and-exception monad together with [this].
    - [url.parse], [util.inspect], [JSON.stringify] and [Buffer.byteLength]
      belong to Node, not to this repository: they are the methods of the
      class [Node], over which everything is stated. *)

From Stdlib Require Import Reals Lra ROrderedType.
From Stdlib Require Import ZArith NArith Lia Bool List String Ascii.
From Stdlib Require Import Decimal DecimalString.
From Stdlib Require PrimFloat Uint63.
Import ListNotations.

Set Implicit Arguments.

(* ===================================================================== *)
(** ** JavaScript numbers *)
(* ===================================================================== *)

Module JS.

Inductive num : Type :=
| Fin (x : R)
| PInf
| NInf
| NaN.

(** Sign of a real: [Lt] negative, [Eq] zero, [Gt] positive. *)
Definition sign (x : R) : comparison := Rcompare x 0.

(** Unary minus. *)
Definition neg (a : num) : num :=
  match a with
  | Fin x => Fin (- x)
  | PInf => NInf
  | NInf => PInf
  | NaN => NaN
  end.

(** [a + b]; exact on finite numbers. *)
Definition add (a b : num) : num :=
  match a, b with
  | NaN, _ | _, NaN => NaN
  | Fin x, Fin y => Fin (x + y)
  | PInf, NInf | NInf, PInf => NaN
  | PInf, _ | _, PInf => PInf
  | NInf, _ | _, NInf => NInf
  end.

(** An infinity scaled by the sign of a finite factor; [0 * Infinity] is NaN. *)
Definition scale_inf (positive : bool) (x : R) : num :=
  match sign x with
  | Gt => if positive then PInf else NInf
  | Lt => if positive then NInf else PInf
  | Eq => NaN
  end.

(** [a * b]; exact on finite numbers, so without rounding, overflow or
    underflow. *)
Definition mul (a b : num) : num :=
  match a, b with
  | NaN, _ | _, NaN => NaN
  | Fin x, Fin y => Fin (x * y)
  | Fin x, PInf | PInf, Fin x => scale_inf true x
  | Fin x, NInf | NInf, Fin x => scale_inf false x
  | PInf, PInf | NInf, NInf => PInf
  | PInf, NInf | NInf, PInf => NInf
  end.

(** [a / b].  A finite non-zero number over zero is an infinity of the sign
    of the numerator (zero is unsigned here), [0 / 0] is NaN. *)
Definition div (a b : num) : num :=
  match a, b with
  | NaN, _ | _, NaN => NaN
  | Fin x, Fin y =>
      match sign y with
      | Eq => scale_inf true x
      | _ => Fin (x / y)
      end
  | Fin _, PInf | Fin _, NInf => Fin 0
  | PInf, Fin y => match sign y with Lt => NInf | _ => PInf end
  | NInf, Fin y => match sign y with Lt => PInf | _ => NInf end
  | PInf, PInf | PInf, NInf | NInf, PInf | NInf, NInf => NaN
  end.

(** [Math.exp]; the exact exponential on finite numbers, so it neither
    overflows to [Infinity] nor underflows to 0. *)
Definition exp (a : num) : num :=
  match a with
  | Fin x => Fin (Rtrigo_def.exp x)
  | PInf => PInf
  | NInf => Fin 0
  | NaN => NaN
  end.

(** [Math.log]: NaN below zero, [-Infinity] at zero, the exact logarithm
    above. *)
Definition log (a : num) : num :=
  match a with
  | Fin x =>
      match sign x with
      | Gt => Fin (ln x)
      | Eq => NInf
      | Lt => NaN
      end
  | PInf => PInf
  | NInf => NaN
  | NaN => NaN
  end.

(** [a > b]: every comparison with NaN is false. *)
Definition gt (a b : num) : bool :=
  match a, b with
  | NaN, _ | _, NaN => false
  | Fin x, Fin y => match Rcompare x y with Gt => true | _ => false end
  | PInf, PInf => false
  | PInf, _ => true
  | _, PInf => false
  | NInf, _ => false
  | Fin _, NInf => true
  end.

(** ToBoolean on a number: zero and NaN are falsy. *)
Definition truthy (a : num) : bool :=
  match a with
  | Fin x => match sign x with Eq => false | _ => true end
  | PInf | NInf => true
  | NaN => false
  end.

(** [a || d] where [a] is a number or [undefined]. *)
Definition or_else (a : option num) (d : num) : num :=
  match a with
  | Some x => if truthy x then x else d
  | None => d
  end.

(** [a || d] where [a] is a string or [undefined]: the empty string is falsy. *)
Definition or_else_string (a : option string) (d : string) : string :=
  match a with
  | Some EmptyString => d
  | Some s => s
  | None => d
  end.

(** ToString of a non-negative integer, as used by [+] on strings. *)
Definition string_of_N (n : N) : string := NilZero.string_of_uint (N.to_uint n).

(** ToString of an integer. *)
Definition string_of_Z (z : Z) : string := NilZero.string_of_int (Z.to_int z).

(** A thrown JavaScript error. *)
Inductive exn : Type :=
| TypeError (message : string)
| Error (message : string).

End JS.

Import JS.
Open Scope string_scope.

(* ===================================================================== *)
(** ** Data *)
(* ===================================================================== *)

(** Metadata values: plain data, none of them callable. *)
#[local] Unset Elimination Schemes.
Inductive value : Type :=
| VUndefined
| VNull
| VBool (b : bool)
| VNumber (n : num)
| VString (s : string)
| VObject (props : list (string * value)).
#[local] Set Elimination Schemes.

(** The [meta] argument of [log]: nothing, [null], or a plain object given by
    its own enumerable properties in enumeration order. *)
Inductive meta_arg : Type :=
| MetaUndefined
| MetaNull
| MetaObject (props : list (string * value)).

(** The [callback] argument: the module's [noop] or a function of the
    caller, which the transport only ever calls. *)
Inductive callback_fn : Type :=
| noop
| UserCallback (id : nat).

(** One call [callback(err, body)]; [callback(new Error(m))] leaves the
    second argument undefined. *)
Record invocation : Type := Invoke {
  inv_callback : callback_fn;
  inv_error : option exn;
  inv_body : option string
}.

Record attachment : Type := {
  fallback : string;
  att_text : string;
  color : string
}.

(** The object literal [payload]; [attachments] is [None] when the property
    was never assigned. *)
Record payload_t : Type := {
  text : string;
  payload_channel : string;
  payload_username : string;
  icon_emoji : string;
  icon_url : string;
  unfurl_links : bool;
  attachments : option (list attachment)
}.

Inductive port_t : Type :=
| PortString (s : string)
| PortNumber (n : Z).

(** The result of [url.parse], restricted to the fields the constructor reads;
    [None] is [null]. *)
Record parsed_url : Type := {
  url_hostname : option string;
  url_port : option string;
  url_path : option string
}.

(** One [https.request]: its options, the body written to it, the listener
    given for the response, and the listeners registered for ['error']. *)
Record request : Type := {
  req_host : option string;
  req_port : port_t;
  req_path : option string;
  req_method : string;
  req_content_type : string;
  req_content_length : N;
  req_data : string;
  req_on_response : Z -> list string -> invocation;
  req_on_error : list (exn -> invocation)
}.

(** What the transport does to the outside, in order.  [RecordSend] is a
    ghost event marking one run of [incrementLimitSent]. *)
Inductive event : Type :=
| Request (r : request)
| RecordSend (date : Z).

Definition formatter_fn : Type := string -> string -> meta_arg -> string.

(** The [options] argument of the constructor; [None] is an absent property. *)
Record options_t : Type := {
  opt_name : option string;
  opt_level : option string;
  opt_formatter : option formatter_fn;
  opt_webhookUrl : option string;
  opt_channel : option string;
  opt_username : option string;
  opt_iconEmoji : option string;
  opt_iconUrl : option string;
  opt_unfurlLinks : option bool;
  opt_limitPerSecond : option num;
  opt_limitWindowSeconds : option num
}.

Definition empty_options : options_t :=
  {| opt_name := None; opt_level := None; opt_formatter := None;
     opt_webhookUrl := None; opt_channel := None; opt_username := None;
     opt_iconEmoji := None; opt_iconUrl := None; opt_unfurlLinks := None;
     opt_limitPerSecond := None; opt_limitWindowSeconds := None |}.

(** The transport object. *)
Record SlackWebHook : Type := {
  name : string;
  level : string;
  formatter : option formatter_fn;
  webhookUrl : string;
  channel : string;
  username : string;
  iconEmoji : string;
  iconUrl : string;
  unfurlLinks : bool;
  limitPerSecond : num;
  limitWindowSeconds : num;
  host : option string;
  port : port_t;
  path : option string;
  limitLambda : num;
  limitSent : num;
  limitLastUpdate : Z;
  limitNumDiscarded : N
}.

Definition set_limitSent (v : num) (o : SlackWebHook) : SlackWebHook :=
  {| name := name o; level := level o; formatter := formatter o;
     webhookUrl := webhookUrl o; channel := channel o; username := username o;
     iconEmoji := iconEmoji o; iconUrl := iconUrl o; unfurlLinks := unfurlLinks o;
     limitPerSecond := limitPerSecond o; limitWindowSeconds := limitWindowSeconds o;
     host := host o; port := port o; path := path o;
     limitLambda := limitLambda o; limitSent := v;
     limitLastUpdate := limitLastUpdate o; limitNumDiscarded := limitNumDiscarded o |}.

Definition set_limitLastUpdate (v : Z) (o : SlackWebHook) : SlackWebHook :=
  {| name := name o; level := level o; formatter := formatter o;
     webhookUrl := webhookUrl o; channel := channel o; username := username o;
     iconEmoji := iconEmoji o; iconUrl := iconUrl o; unfurlLinks := unfurlLinks o;
     limitPerSecond := limitPerSecond o; limitWindowSeconds := limitWindowSeconds o;
     host := host o; port := port o; path := path o;
     limitLambda := limitLambda o; limitSent := limitSent o;
     limitLastUpdate := v; limitNumDiscarded := limitNumDiscarded o |}.

Definition set_limitNumDiscarded (v : N) (o : SlackWebHook) : SlackWebHook :=
  {| name := name o; level := level o; formatter := formatter o;
     webhookUrl := webhookUrl o; channel := channel o; username := username o;
     iconEmoji := iconEmoji o; iconUrl := iconUrl o; unfurlLinks := unfurlLinks o;
     limitPerSecond := limitPerSecond o; limitWindowSeconds := limitWindowSeconds o;
     host := host o; port := port o; path := path o;
     limitLambda := limitLambda o; limitSent := limitSent o;
     limitLastUpdate := limitLastUpdate o; limitNumDiscarded := v |}.

(* ===================================================================== *)
(** ** The monad: [this], the clock and the trace, with exceptions *)
(* ===================================================================== *)

(** The world outside the object: [clock k] is what the [k]-th [new Date()]
    of the run returns, [ticks] counts the readings made so far. *)
Record world : Type := {
  clock : nat -> Z;
  ticks : nat;
  trace : list event
}.

Definition state : Type := (SlackWebHook * world)%type.

Inductive result (A : Type) : Type :=
| Ok (a : A)
| Throw (e : exn).
Arguments Throw {A} e.

(** A method body.  A throw keeps the mutations made before it. *)
Definition M (A : Type) : Type := state -> result A * state.

Definition ret {A} (a : A) : M A := fun s => (Ok a, s).

Definition bind {A B} (c : M A) (k : A -> M B) : M B :=
  fun s =>
    match c s with
    | (Ok a, s') => k a s'
    | (Throw e, s') => (Throw e, s')
    end.

Declare Scope js_scope.
Delimit Scope js_scope with js.
Notation "x <- c ;; k" := (bind c (fun x => k))
  (at level 61, c at next level, right associativity) : js_scope.
Notation "c ;; k" := (bind c (fun _ => k))
  (at level 61, right associativity) : js_scope.
Open Scope js_scope.

(** Read [this]. *)
Definition this : M SlackWebHook := fun s => (Ok (fst s), s).

(** Assign to fields of [this]. *)
Definition update (f : SlackWebHook -> SlackWebHook) : M unit :=
  fun s => (Ok tt, (f (fst s), snd s)).

Definition advance (w : world) : world :=
  {| clock := clock w; ticks := S (ticks w); trace := trace w |}.

Definition emit (e : event) (w : world) : world :=
  {| clock := clock w; ticks := ticks w; trace := trace w ++ [e] |}.

(** [new Date()]. *)
Definition new_Date : M Z :=
  fun s => (Ok (clock (snd s) (ticks (snd s))), (fst s, advance (snd s))).

Definition tell (e : event) : M unit :=
  fun s => (Ok tt, (fst s, emit e (snd s))).

(* ===================================================================== *)
(** ** The rate limiter (source lines 43-62) *)
(* ===================================================================== *)

(** [SlackWebHook.prototype.getLimitSentAtDate]. *)
Definition getLimitSentAtDate (o : SlackWebHook) (date : Z) : num :=
  let secondsSinceUpdate :=
    JS.div (Fin (IZR (date - limitLastUpdate o))) (Fin 1000) in
  let limitSentNow :=
    JS.mul (limitSent o)
           (JS.exp (JS.mul (JS.neg (limitLambda o)) secondsSinceUpdate)) in
  limitSentNow.

(** [SlackWebHook.prototype.isRateLimitExceeded]. *)
Definition isRateLimitExceeded : M bool :=
  now <- new_Date ;;
  o <- this ;;
  let limitSentNow := getLimitSentAtDate o now in
  ret (JS.gt limitSentNow (JS.mul (limitPerSecond o) (limitWindowSeconds o))).

(** [SlackWebHook.prototype.incrementLimitSent]. *)
Definition incrementLimitSent : M unit :=
  nowDate <- new_Date ;;
  o <- this ;;
  let limitSentNow := getLimitSentAtDate o nowDate in
  update (set_limitSent (JS.add limitSentNow (Fin 1))) ;;
  update (set_limitLastUpdate nowDate) ;;
  tell (RecordSend nowDate).

(* ===================================================================== *)
(** ** Node's side of a request *)
(* ===================================================================== *)

(** How a request ends: a complete response (status code and body chunks),
    or an ['error'] event on the request (connection refused, reset, DNS). *)
Inductive outcome : Type :=
| Responded (statusCode : Z) (chunks : list string)
| Failed (err : exn).

(** What the process sees when a request ends. *)
Inductive completion : Type :=
| Called (calls : list invocation)
| Uncaught (e : exn).

(** The event emitter's rule: a response runs the response listener, which
    collects the chunks and fires on ['end']; an ['error'] event runs the
    registered ['error'] listeners and, when there is none, is thrown. *)
Definition settle (r : request) (o : outcome) : completion :=
  match o with
  | Responded statusCode chunks => Called [req_on_response r statusCode chunks]
  | Failed err =>
      match req_on_error r with
      | [] => Uncaught err
      | listeners => Called (map (fun l => l err) listeners)
      end
  end.

(* ===================================================================== *)
(** ** Objects as [meta] *)
(* ===================================================================== *)

(** [meta[key]] on the own properties; an absent property is [undefined]. *)
Fixpoint get_property (props : list (string * value)) (key : string) : value :=
  match props with
  | [] => VUndefined
  | (k, v) :: rest => if String.eqb k key then v else get_property rest key
  end.

Definition has_own (props : list (string * value)) (key : string) : bool :=
  existsb (String.eqb key) (map fst props).

(** [Object.keys(meta)]: throws on [undefined] and [null]. *)
Definition Object_keys (meta : meta_arg) : result (list string) :=
  match meta with
  | MetaUndefined | MetaNull =>
      Throw (TypeError "Cannot convert undefined or null to object")
  | MetaObject props => Ok (map fst props)
  end.

(** [meta.hasOwnProperty(key)]: the method is looked up on [meta] first, so an
    own property of that name hides [Object.prototype.hasOwnProperty]; no
    metadata value is callable. *)
Definition hasOwnProperty (props : list (string * value)) (key : string)
  : result bool :=
  if has_own props "hasOwnProperty"
  then Throw (TypeError "meta.hasOwnProperty is not a function")
  else Ok (has_own props key).

Definition own_props (meta : meta_arg) : list (string * value) :=
  match meta with
  | MetaObject props => props
  | _ => []
  end.

Definition lift {A} (r : result A) : M A := fun s => (r, s).

Definition with_attachments (a : list attachment) (p : payload_t) : payload_t :=
  {| text := text p; payload_channel := payload_channel p;
     payload_username := payload_username p; icon_emoji := icon_emoji p;
     icon_url := icon_url p; unfurl_links := unfurl_links p;
     attachments := Some a |}.

(** The functions of Node the transport calls: [url.parse], [util.inspect],
    [JSON.stringify] and [Buffer.byteLength]. *)
Class Node : Type := {
  url_parse : string -> parsed_url;
  inspect : value -> string;
  JSON_stringify : payload_t -> string;
  byteLength : string -> N
}.

Section Transport.

Context {node : Node}.

(* ===================================================================== *)
(** ** The constructor (source lines 10-39) *)
(* ===================================================================== *)

Definition new_SlackWebHook (options : option options_t) (w : world)
  : SlackWebHook * world :=
  let options := match options with Some o => o | None => empty_options end in
  let webhookUrl := JS.or_else_string (opt_webhookUrl options) "" in
  let limitPerSecond := JS.or_else (opt_limitPerSecond options) PInf in
  let limitWindowSeconds := JS.or_else (opt_limitWindowSeconds options) (Fin 30) in
  let parsedUrl := url_parse webhookUrl in
  ({| name := JS.or_else_string (opt_name options) "slackWebHook";
      level := JS.or_else_string (opt_level options) "info";
      formatter := opt_formatter options;
      webhookUrl := webhookUrl;
      channel := JS.or_else_string (opt_channel options) "";
      username := JS.or_else_string (opt_username options) "";
      iconEmoji := JS.or_else_string (opt_iconEmoji options) "";
      iconUrl := JS.or_else_string (opt_iconUrl options) "";
      unfurlLinks := match opt_unfurlLinks options with Some b => b | None => false end;
      limitPerSecond := limitPerSecond;
      limitWindowSeconds := limitWindowSeconds;
      host := url_hostname parsedUrl;
      port := match url_port parsedUrl with
              | None | Some EmptyString => PortNumber 443
              | Some p => PortString p
              end;
      path := url_path parsedUrl;
      limitLambda :=
        JS.mul limitPerSecond
               (JS.log (JS.add (JS.div (Fin 1)
                                       (JS.mul limitPerSecond limitWindowSeconds))
                               (Fin 1)));
      limitSent := Fin 0;
      limitLastUpdate := clock w (ticks w);
      limitNumDiscarded := 0%N |},
   advance w).

(* ===================================================================== *)
(** ** Building and sending a message (source lines 64-129) *)
(* ===================================================================== *)

(** The [switch] on [level]. *)
Definition color_of (level : string) : string :=
  if String.eqb level "error" then "danger"
  else if String.eqb level "warn" then "warning"
  else "good".

(** The [for (let key in meta)] loop, pushing onto [attachments].  On a plain
    object the loop visits the keys [Object.keys] lists, in that order. *)
Fixpoint for_in (props : list (string * value)) (keys : list string)
    (color : string) (attachments : list attachment)
  : result (list attachment) :=
  match keys with
  | [] => Ok attachments
  | key :: rest =>
      match hasOwnProperty props key with
      | Throw e => Throw e
      | Ok true =>
          for_in props rest color
            (attachments ++
             [{| fallback := inspect (get_property props key);
                 att_text := key ++ ": " ++ inspect (get_property props key);
                 color := color |}])
      | Ok false => for_in props rest color attachments
      end
  end.

(** The listener given to [https.request]: gather the body, then on ['end']
    report through [callback]. *)
Definition on_response (callback : callback_fn) (statusCode : Z)
    (chunks : list string) : invocation :=
  let body := String.concat "" chunks in
  if (statusCode =? 200)%Z
  then Invoke callback None (Some body)
  else Invoke callback
         (Some (Error ("https request fails. statusCode "
                       ++ JS.string_of_Z statusCode ++ ", body " ++ body)))
         None.

(** [SlackWebHook.prototype.sendSlackLog].  The call of [https.request], with
    [req.write] and [req.end], is the one [Request] event; that call refusing
    its options is not modelled. *)
Definition sendSlackLog (level msg : string) (meta : meta_arg)
    (callback : callback_fn) : M unit :=
  o <- this ;;
  let msg := match formatter o with
             | Some f => f level msg meta
             | None => msg
             end in
  let payload :=
    {| text := msg;
       payload_channel := channel o;
       payload_username := username o;
       icon_emoji := iconEmoji o;
       icon_url := iconUrl o;
       unfurl_links := unfurlLinks o;
       attachments := None |} in
  keys <- lift (Object_keys meta) ;;
  payload <- (if (0 <? List.length keys)%nat
              then
                let color := color_of level in
                attachments <- lift (for_in (own_props meta) keys color []) ;;
                ret (with_attachments attachments payload)
              else ret payload) ;;
  let data := JSON_stringify payload in
  tell (Request
          {| req_host := host o;
             req_port := port o;
             req_path := path o;
             req_method := "POST";
             req_content_type := "application/json";
             req_content_length := byteLength data;
             req_data := data;
             req_on_response := on_response callback;
             req_on_error := [] |}).

(* ===================================================================== *)
(** ** The entry point (source lines 131-144) *)
(* ===================================================================== *)

(** [SlackWebHook.prototype.log]. *)
Definition log (level msg : string) (meta : meta_arg) (callback : callback_fn)
  : M unit :=
  exceeded <- isRateLimitExceeded ;;
  if exceeded then
    o <- this ;;
    update (set_limitNumDiscarded (limitNumDiscarded o + 1)%N)
  else
    o <- this ;;
    (if (0 <? limitNumDiscarded o)%N then
       sendSlackLog "warn"
         ("winston-slack-webhook discarded "
          ++ JS.string_of_N (limitNumDiscarded o) ++ " messages")
         (MetaObject []) noop ;;
       update (set_limitNumDiscarded 0%N) ;;
       incrementLimitSent
     else ret tt) ;;
    sendSlackLog level msg meta callback ;;
    incrementLimitSent.

End Transport.

(* ===================================================================== *)
(** ** Vocabulary for the statements *)
(* ===================================================================== *)

(** The burst budget [limitPerSecond * limitWindowSeconds]. *)
Definition budget (o : SlackWebHook) : num :=
  JS.mul (limitPerSecond o) (limitWindowSeconds o).

(** What [isRateLimitExceeded] answers when the clock reads [now]. *)
Definition exceeded_at (o : SlackWebHook) (now : Z) : bool :=
  JS.gt (getLimitSentAtDate o now) (budget o).

(** The object after one [incrementLimitSent] at [now]. *)
Definition recorded (now : Z) (o : SlackWebHook) : SlackWebHook :=
  set_limitLastUpdate now
    (set_limitSent (JS.add (getLimitSentAtDate o now) (Fin 1)) o).

(** The next clock reading. *)
Definition now_of (w : world) : Z := clock w (ticks w).

(** Every request is followed at once by one [RecordSend], and there is no
    other [RecordSend]. *)
Fixpoint paired (evs : list event) : bool :=
  match evs with
  | [] => true
  | Request _ :: RecordSend _ :: rest => paired rest
  | _ => false
  end.

Definition requests (evs : list event) : list request :=
  flat_map (fun e => match e with Request r => [r] | RecordSend _ => [] end) evs.

Definition records (evs : list event) : list Z :=
  flat_map (fun e => match e with Request _ => [] | RecordSend d => [d] end) evs.

(** The message text after the optional formatter. *)
Definition formatted (o : SlackWebHook) (level msg : string) (meta : meta_arg)
  : string :=
  match formatter o with
  | Some f => f level msg meta
  | None => msg
  end.

(** The payload without attachments. *)
Definition base_payload (o : SlackWebHook) (txt : string) : payload_t :=
  {| text := txt;
     payload_channel := channel o;
     payload_username := username o;
     icon_emoji := iconEmoji o;
     icon_url := iconUrl o;
     unfurl_links := unfurlLinks o;
     attachments := None |}.

(** The attachment the loop pushes for one property. *)
Definition attachment_of {node : Node} (level : string)
    (kv : string * value) : attachment :=
  {| fallback := inspect (snd kv);
     att_text := fst kv ++ ": " ++ inspect (snd kv);
     color := color_of level |}.

(** The text of the discard notice. *)
Definition discard_notice (n : N) : string :=
  "winston-slack-webhook discarded " ++ JS.string_of_N n ++ " messages".

(** A user of the transport: it may log, and nothing stops it from calling
    the two limiter methods. *)
Inductive call : Type :=
| CallLog (level msg : string) (meta : meta_arg) (callback : callback_fn)
| CallIncrementLimitSent
| CallIsRateLimitExceeded.

Section Runs.

Context {node : Node}.

(** The payload [sendSlackLog] builds, or what it throws while building. *)
Definition payload_of (o : SlackWebHook) (level msg : string) (meta : meta_arg)
  : result payload_t :=
  match Object_keys meta with
  | Throw e => Throw e
  | Ok keys =>
      if (0 <? List.length keys)%nat then
        match for_in (own_props meta) keys (color_of level) [] with
        | Throw e => Throw e
        | Ok a => Ok (with_attachments a (base_payload o (formatted o level msg meta)))
        end
      else Ok (base_payload o (formatted o level msg meta))
  end.

(** The request [sendSlackLog] issues for a payload. *)
Definition slack_request (o : SlackWebHook) (p : payload_t)
    (callback : callback_fn) : request :=
  {| req_host := host o;
     req_port := port o;
     req_path := path o;
     req_method := "POST";
     req_content_type := "application/json";
     req_content_length := byteLength (JSON_stringify p);
     req_data := JSON_stringify p;
     req_on_response := on_response callback;
     req_on_error := [] |}.

(** The state once a message with payload [p] has gone out and has been
    counted: one request, then one [incrementLimitSent]. *)
Definition sent (p : payload_t) (callback : callback_fn) (s : state) : state :=
  (recorded (now_of (snd s)) (fst s),
   emit (RecordSend (now_of (snd s)))
     (advance (emit (Request (slack_request (fst s) p callback)) (snd s)))).

(** The payload of the discard notice. *)
Definition notice_payload (o : SlackWebHook) : payload_t :=
  base_payload o
    (formatted o "warn" (discard_notice (limitNumDiscarded o)) (MetaObject [])).

(** The state after the pending discard notice, if any, has been flushed. *)
Definition flushed (s : state) : state :=
  if (0 <? limitNumDiscarded (fst s))%N
  then sent (notice_payload (fst s)) noop
         (set_limitNumDiscarded 0%N (fst s), snd s)
  else s.

(** The [limitPerSecond] option as the constructor finds it. *)
Definition configured_limit (options : option options_t) : option num :=
  match options with
  | Some o => opt_limitPerSecond o
  | None => None
  end.

(** One call with the caller catching whatever it throws. *)
Definition run_call (c : call) (s : state) : state :=
  match c with
  | CallLog level msg meta callback =>
      snd (log level msg meta callback s)
  | CallIncrementLimitSent => snd (incrementLimitSent s)
  | CallIsRateLimitExceeded => snd (isRateLimitExceeded s)
  end.

Definition run_calls (cs : list call) (s : state) : state :=
  fold_left (fun s c => run_call c s) cs s.

End Runs.

(** The transport after [n] calls of [incrementLimitSent]. *)
Fixpoint after_sends (n : nat) (s : state) : state :=
  match n with
  | O => s
  | S k => snd (incrementLimitSent (after_sends k s))
  end.

(** The instant of the [n]-th send after construction in world [w]: the
    constructor takes the first reading, every send the next one. *)
Definition send_time (w : world) (n : nat) : Z := clock w (ticks w + 1 + n).

(** The score of a stream sent at exactly the allowed rate, just before its
    [n]-th message, for a budget [b]: [b * (1 - (b / (1 + b)) ^ n)]. *)
Definition steady_score (b : R) (n : nat) : R :=
  (b * (1 - (b / (1 + b)) ^ n))%R.

Section Scores.

Context {node : Node}.

(** The score [getLimitSentAtDate] projects just before the [n]-th send
    (counted from 0) of a transport built from [options] in world [w]. *)
Definition score_before_send (options : options_t) (w : world) (n : nat) : num :=
  let s := after_sends n (new_SlackWebHook (Some options) w) in
  getLimitSentAtDate (fst s) (now_of (snd s)).

End Scores.

(** Metadata [sendSlackLog] can render: an object none of whose own
    properties is called [hasOwnProperty]. *)
Definition renderable (meta : meta_arg) : bool :=
  match meta with
  | MetaObject props => negb (has_own props "hasOwnProperty")
  | _ => false
  end.


(** A [log] call whose metadata can be rendered. *)
Definition is_renderable_log (c : call) : bool :=
  match c with
  | CallLog _ _ meta _ => renderable meta
  | _ => false
  end.

(** The fields no method assigns: what the constructor stores from the
    options, the parsed URL and the decay constant. *)
Definition same_config (a b : SlackWebHook) : Prop :=
  name a = name b /\ level a = level b /\ formatter a = formatter b
  /\ webhookUrl a = webhookUrl b /\ channel a = channel b
  /\ username a = username b /\ iconEmoji a = iconEmoji b
  /\ iconUrl a = iconUrl b /\ unfurlLinks a = unfurlLinks b
  /\ limitPerSecond a = limitPerSecond b
  /\ limitWindowSeconds a = limitWindowSeconds b
  /\ host a = host b /\ port a = port b /\ path a = path b
  /\ limitLambda a = limitLambda b.

(** The clock never runs backwards. *)
Definition monotone_clock (w : world) : Prop :=
  forall i j : nat, (i <= j)%nat -> (clock w i <= clock w j)%Z.

(** Seconds from instant [a] to instant [b]. *)
Definition seconds_between (a b : Z) : R := (IZR (b - a) / 1000)%R.


(** The state of a stream that is being let through: [k] messages sent so
    far, nothing discarded, and a score that will be within the budget [b]
    when the next message is checked. *)
Definition on_schedule (w0 : world) (l b : R) (k : nat) (s : state) : Prop :=
  clock (snd s) = clock w0
  /\ ticks (snd s) = (ticks w0 + 1 + 2 * k)%nat
  /\ limitLambda (fst s) = Fin l
  /\ budget (fst s) = Fin b
  /\ limitNumDiscarded (fst s) = 0%N
  /\ exists x, limitSent (fst s) = Fin x /\ (0 <= x)%R
       /\ (x * Rtrigo_def.exp
                (- l * seconds_between (limitLastUpdate (fst s))
                         (now_of (snd s))) <= b)%R.

(* ===================================================================== *)
(** ** Concrete instances for the examples *)
(* ===================================================================== *)

(** Stand-ins for Node's functions, used only where a statement is evaluated
    on a concrete input. *)
Definition demo_inspect (v : value) : string :=
  match v with
  | VUndefined => "undefined"
  | VNull => "null"
  | VBool true => "true"
  | VBool false => "false"
  | VNumber _ => "[Number]"
  | VString s => "'" ++ s ++ "'"
  | VObject _ => "[Object]"
  end.

Definition demo_node : Node :=
  {| url_parse := fun _ =>
       {| url_hostname := Some "hooks.slack.com";
          url_port := None;
          url_path := Some "/services/T0/B0/X0" |};
     inspect := demo_inspect;
     JSON_stringify := fun p => text p;
     byteLength := fun d => N.of_nat (String.length d) |}.

(** A world whose clock stands still at 0. *)
Definition still_world : world :=
  {| clock := fun _ => 0%Z; ticks := 0; trace := [] |}.

(** A world in which one second passes between two readings. *)
Definition second_world : world :=
  {| clock := fun k => (1000 * Z.of_nat k)%Z; ticks := 0; trace := [] |}.

(** A transport built by hand, with budget 1, last updated at instant 0. *)
Definition demo_hook (lambda sent : num) (discarded : N) : SlackWebHook :=
  {| name := "slackWebHook"; level := "info"; formatter := None;
     webhookUrl := ""; channel := "#ops"; username := "bot";
     iconEmoji := ""; iconUrl := ""; unfurlLinks := false;
     limitPerSecond := Fin 1; limitWindowSeconds := Fin 1;
     host := Some "hooks.slack.com"; port := PortNumber 443;
     path := Some "/services/T0/B0/X0";
     limitLambda := lambda; limitSent := sent;
     limitLastUpdate := 0%Z; limitNumDiscarded := discarded |}.

(** A world in which the first three readings are 0 and the later ones are
    one second on. *)
Definition late_world : world :=
  {| clock := fun k => if (k <? 3)%nat then 0%Z else 1000%Z;
     ticks := 0; trace := [] |}.

Definition rate_options (perSecond windowSeconds : option num) : options_t :=
  {| opt_name := None; opt_level := None; opt_formatter := None;
     opt_webhookUrl := Some "https://hooks.slack.com/services/T0/B0/X0";
     opt_channel := Some "#ops"; opt_username := Some "bot";
     opt_iconEmoji := None; opt_iconUrl := None; opt_unfurlLinks := None;
     opt_limitPerSecond := perSecond;
     opt_limitWindowSeconds := windowSeconds |}.

(* ===================================================================== *)
(** ** The limiter in double precision *)
(* ===================================================================== *)

(** The limiter fields of the constructor and the three limiter methods once
    more, on IEEE 754 binary64 numbers with their rounding, and with the
    clock reading passed in.  Only [Math.exp] and [Math.log] are the
    engine's. *)
Module Doubles.

Import PrimFloat.

(** [Math.exp] and [Math.log]. *)
Class Math : Type := {
  Math_exp : float -> float;
  Math_log : float -> float
}.

(** The limiter's part of the transport object. *)
Record limiter : Type := {
  limitPerSecond : float;
  limitWindowSeconds : float;
  limitLambda : float;
  limitSent : float;
  limitLastUpdate : Z
}.

(** The number a difference of two dates is: an integer of milliseconds,
    exact below [2^53]. *)
Definition of_Z (z : Z) : float :=
  match z with
  | Z0 => 0%float
  | Zpos _ => of_uint63 (Uint63.of_Z z)
  | Zneg p => (- of_uint63 (Uint63.of_Z (Zpos p)))%float
  end.

(** ToBoolean: [+0], [-0] and NaN are falsy. *)
Definition truthy (x : float) : bool := negb ((x =? 0)%float || is_nan x).

(** [a || d] where [a] is a number or [undefined]. *)
Definition or_else (a : option float) (d : float) : float :=
  match a with
  | Some x => if truthy x then x else d
  | None => d
  end.

Section Limiter.

Context {math : Math}.

(** Source lines 22-23 and 35-37. *)
Definition new_limiter (perSecond windowSeconds : option float) (now : Z)
  : limiter :=
  let limitPerSecond := or_else perSecond infinity in
  let limitWindowSeconds := or_else windowSeconds 30%float in
  {| limitPerSecond := limitPerSecond;
     limitWindowSeconds := limitWindowSeconds;
     limitLambda :=
       (limitPerSecond
        * Math_log (1 / (limitPerSecond * limitWindowSeconds) + 1))%float;
     limitSent := 0%float;
     limitLastUpdate := now |}.

(** [SlackWebHook.prototype.getLimitSentAtDate]. *)
Definition getLimitSentAtDate (o : limiter) (date : Z) : float :=
  let secondsSinceUpdate := (of_Z (date - limitLastUpdate o) / 1000)%float in
  let limitSentNow :=
    (limitSent o * Math_exp (- limitLambda o * secondsSinceUpdate))%float in
  limitSentNow.

(** [SlackWebHook.prototype.isRateLimitExceeded], asked at [now]. *)
Definition isRateLimitExceeded (o : limiter) (now : Z) : bool :=
  let limitSentNow := getLimitSentAtDate o now in
  (limitPerSecond o * limitWindowSeconds o <? limitSentNow)%float.

(** [SlackWebHook.prototype.incrementLimitSent], called at [nowDate]. *)
Definition incrementLimitSent (o : limiter) (nowDate : Z) : limiter :=
  let limitSentNow := getLimitSentAtDate o nowDate in
  {| limitPerSecond := limitPerSecond o;
     limitWindowSeconds := limitWindowSeconds o;
     limitLambda := limitLambda o;
     limitSent := (limitSentNow + 1)%float;
     limitLastUpdate := nowDate |}.

(** [n] sends, the first at [t] and each [dt] milliseconds after the one
    before. *)
Fixpoint sends (n : nat) (o : limiter) (t dt : Z) : limiter :=
  match n with
  | O => o
  | S k => sends k (incrementLimitSent o t) (t + dt) dt
  end.

End Limiter.

(** [Math.log] and [Math.exp] at the three arguments a stream of one message
    every four seconds against a window of three seconds evaluates them at:
    [log(1/0.75 + 1)], [exp] of minus that, and [exp(-0) = 1].  The values
    are the correctly rounded ones, which the C library returns; the table
    says nothing elsewhere (NaN). *)
Definition steady_math : Math :=
  {| Math_log := fun x =>
       if (x =? 0x1.2aaaaaaaaaaaap+1)%float then 0x1.b1d10670aae98p-1%float
       else nan;
     Math_exp := fun x =>
       if (x =? -0x1.b1d10670aae98p-1)%float then 0x1.b6db6db6db6ddp-2%float
       else if (x =? 0)%float then 1%float
       else nan |}.

(** [new SlackWebHook({limitPerSecond: 0.25, limitWindowSeconds: 3})] at
    instant 0. *)
Definition steady_start : limiter :=
  @new_limiter steady_math (Some 0.25%float) (Some 3%float) 0.

(** The budget [0.25 * 3] and the next double above it. *)
Definition steady_budget : float := 0.75%float.
Definition above_steady_budget : float := 0x1.8000000000001p-1%float.

(** The transport after [n] sends four seconds apart, the first at the
    instant of construction, and the instant of the next send. *)
Definition steady_after (n : nat) : limiter :=
  @sends steady_math n steady_start 0 4000.

Definition steady_instant (n : nat) : Z := 4000 * Z.of_nat n.

(** Is the limit found exceeded just before send number [n] (from 0)? *)
Definition steady_exceeded (n : nat) : bool :=
  @isRateLimitExceeded steady_math (steady_after n) (steady_instant n).

(** The score projected just before send number [n]. *)
Definition steady_score_before (n : nat) : float :=
  @getLimitSentAtDate steady_math (steady_after n) (steady_instant n).

End Doubles.

(* ===================================================================== *)
(** ** Running the methods *)
(* ===================================================================== *)

Section RunLemmas.

Context {node : Node}.

Lemma isRateLimitExceeded_run (o : SlackWebHook) (w : world) :
  isRateLimitExceeded (o, w) = (Ok (exceeded_at o (now_of w)), (o, advance w)).
Proof. reflexivity. Qed.

Lemma incrementLimitSent_run (o : SlackWebHook) (w : world) :
  incrementLimitSent (o, w)
  = (Ok tt, (recorded (now_of w) o, emit (RecordSend (now_of w)) (advance w))).
Proof. reflexivity. Qed.

Lemma sendSlackLog_run (level msg : string) (meta : meta_arg)
    (callback : callback_fn) (o : SlackWebHook) (w : world) :
  sendSlackLog level msg meta callback (o, w)
  = match payload_of o level msg meta with
    | Ok p => (Ok tt, (o, emit (Request (slack_request o p callback)) w))
    | Throw e => (Throw e, (o, w))
    end.
Proof.
  unfold sendSlackLog, payload_of, bind, this, lift, ret, tell.
  simpl.
  destruct (Object_keys meta) as [keys|e]; [|reflexivity].
  destruct (0 <? List.length keys)%nat; [|reflexivity].
  destruct (for_in (own_props meta) keys (color_of level) []);
    reflexivity.
Qed.

End RunLemmas.

(* ===================================================================== *)
(** ** Facts about numbers *)
(* ===================================================================== *)

Section NumberFacts.

Open Scope R_scope.

Lemma sign_pos (x : R) : 0 < x -> JS.sign x = Gt.
Proof.
  intros H. unfold JS.sign. destruct (Rcompare_spec x 0); auto; lra.
Qed.

Lemma sign_zero : JS.sign 0 = Eq.
Proof.
  unfold JS.sign. destruct (Rcompare_spec 0 0); auto; lra.
Qed.

Lemma sign_Eq (x : R) : JS.sign x = Eq -> x = 0.
Proof.
  unfold JS.sign. destruct (Rcompare_spec x 0); congruence.
Qed.

Lemma gt_Fin (x y : R) : JS.gt (Fin x) (Fin y) = true <-> y < x.
Proof.
  simpl. destruct (Rcompare_spec x y); split; intros; try lra; congruence.
Qed.

Lemma gt_irrefl (a : num) : JS.gt a a = false.
Proof.
  destruct a; simpl; auto.
  destruct (Rcompare_spec x x); auto; lra.
Qed.

Lemma mul_NaN_r (a : num) : JS.mul a NaN = NaN.
Proof. destruct a; reflexivity. Qed.

Lemma mul_NaN_l (a : num) : JS.mul NaN a = NaN.
Proof. reflexivity. Qed.

Lemma div_Fin (x y : R) : y <> 0 -> JS.div (Fin x) (Fin y) = Fin (x / y).
Proof.
  intros Hy. simpl. destruct (JS.sign y) eqn:E; auto.
  apply sign_Eq in E. contradiction.
Qed.

Lemma truthy_or_else (a : option num) (d : num) :
  JS.truthy d = true -> JS.truthy (JS.or_else a d) = true.
Proof.
  intros Hd. destruct a as [x|]; simpl; auto.
  destruct (JS.truthy x) eqn:E; auto.
Qed.

End NumberFacts.

(* ===================================================================== *)
(** ** Running [log] *)
(* ===================================================================== *)

Section LogRuns.

Context {node : Node}.

Lemma payload_of_config (o o' : SlackWebHook) (level msg : string)
    (meta : meta_arg) :
  formatter o' = formatter o -> channel o' = channel o ->
  username o' = username o -> iconEmoji o' = iconEmoji o ->
  iconUrl o' = iconUrl o -> unfurlLinks o' = unfurlLinks o ->
  payload_of o' level msg meta = payload_of o level msg meta.
Proof.
  intros Hf Hc Hu He Hi Hl.
  unfold payload_of, base_payload, formatted.
  rewrite Hf, Hc, Hu, He, Hi, Hl. reflexivity.
Qed.

(** The empty object builds a payload without attachments. *)
Lemma payload_of_empty (o : SlackWebHook) (level msg : string) :
  payload_of o level msg (MetaObject [])
  = Ok (base_payload o (formatted o level msg (MetaObject []))).
Proof. reflexivity. Qed.

(** The discard branch of [log]. *)
Lemma log_discard (level msg : string) (meta : meta_arg) (callback : callback_fn)
    (o : SlackWebHook) (w : world) :
  exceeded_at o (now_of w) = true ->
  log level msg meta callback (o, w)
  = (Ok tt, (set_limitNumDiscarded (limitNumDiscarded o + 1)%N o, advance w)).
Proof.
  intros H. unfold log, bind.
  rewrite isRateLimitExceeded_run, H. reflexivity.
Qed.

(** The sending branch of [log]: flush, then build, send and count. *)
Lemma log_accept (level msg : string) (meta : meta_arg) (callback : callback_fn)
    (o : SlackWebHook) (w : world) :
  exceeded_at o (now_of w) = false ->
  log level msg meta callback (o, w)
  = match payload_of o level msg meta with
    | Ok p => (Ok tt, sent p callback (flushed (o, advance w)))
    | Throw e => (Throw e, flushed (o, advance w))
    end.
Proof.
  intros H. unfold log, bind at 1.
  rewrite isRateLimitExceeded_run, H.
  unfold bind at 1. unfold this at 1. cbn [fst snd].
  unfold bind at 1. unfold flushed. cbn [fst snd].
  destruct (0 <? limitNumDiscarded o)%N eqn:Hn.
  - unfold bind at 1. rewrite sendSlackLog_run, payload_of_empty.
    unfold bind at 1. unfold update at 1. cbn [fst snd].
    rewrite incrementLimitSent_run.
    unfold bind. rewrite sendSlackLog_run.
    rewrite (@payload_of_config o) by reflexivity.
    destruct (payload_of o level msg meta) as [p|e]; [|reflexivity].
    rewrite incrementLimitSent_run. reflexivity.
  - unfold ret, bind. rewrite sendSlackLog_run.
    destruct (payload_of o level msg meta) as [p|e]; [|reflexivity].
    rewrite incrementLimitSent_run. reflexivity.
Qed.

Lemma trace_sent (p : payload_t) (callback : callback_fn) (s : state) :
  trace (snd (sent p callback s))
  = (trace (snd s)
     ++ [Request (slack_request (fst s) p callback);
         RecordSend (now_of (snd s))])%list.
Proof.
  unfold sent. simpl. rewrite <- app_assoc. reflexivity.
Qed.

Lemma trace_flushed (s : state) :
  trace (snd (flushed s))
  = (trace (snd s)
     ++ (if (0 <? limitNumDiscarded (fst s))%N
         then [Request (slack_request (fst s) (notice_payload (fst s)) noop);
               RecordSend (now_of (snd s))]
         else []))%list.
Proof.
  unfold flushed.
  destruct (0 <? limitNumDiscarded (fst s))%N.
  - rewrite trace_sent. reflexivity.
  - now rewrite app_nil_r.
Qed.

End LogRuns.

(* ===================================================================== *)
(** ** The limiter's two methods *)
(* ===================================================================== *)

Section Limiter.

Context {node : Node}.

(** The projection on finite data, as a real expression. *)
Lemma getLimitSentAtDate_Fin (o : SlackWebHook) (date : Z) (x l : R) :
  limitSent o = Fin x -> limitLambda o = Fin l ->
  getLimitSentAtDate o date
  = Fin (x * Rtrigo_def.exp (- l * (IZR (date - limitLastUpdate o) / 1000))).
Proof.
  intros Hx Hl. unfold getLimitSentAtDate. rewrite Hx, Hl.
  rewrite div_Fin by lra. reflexivity.
Qed.

(** Without decay and without elapsed time the score is read back as is. *)
Lemma demo_hook_score (x : R) (n : N) :
  getLimitSentAtDate (demo_hook (Fin 0) (Fin x) n) 0 = Fin x.
Proof.
  rewrite (@getLimitSentAtDate_Fin _ 0%Z x 0%R) by reflexivity.
  f_equal. replace (- 0 * _)%R with 0%R by lra.
  rewrite exp_0. lra.
Qed.

Lemma demo_hook_budget (l a : num) (n : N) : budget (demo_hook l a n) = Fin 1.
Proof. unfold budget. simpl. f_equal. lra. Qed.

(** C2. [isRateLimitExceeded] reads the clock once and answers whether
    [limitSent * exp(-limitLambda * seconds since limitLastUpdate)] is
    strictly greater than [limitPerSecond * limitWindowSeconds]; it changes
    no field of the transport and issues nothing; on finite numbers the
    answer is [true] exactly when the budget is below the projected score,
    and a score equal to the budget answers [false]. *)
Theorem isRateLimitExceeded_strict (o : SlackWebHook) (w : world) :
  let now := now_of w in
  let projected :=
    JS.mul (limitSent o)
      (JS.exp (JS.mul (JS.neg (limitLambda o))
                 (JS.div (Fin (IZR (now - limitLastUpdate o))) (Fin 1000)))) in
  let limit := JS.mul (limitPerSecond o) (limitWindowSeconds o) in
  isRateLimitExceeded (o, w) = (Ok (JS.gt projected limit), (o, advance w))
  /\ getLimitSentAtDate o now = projected
  /\ (forall x y : R, projected = Fin x -> limit = Fin y ->
        (JS.gt projected limit = true <-> (y < x)%R))
  /\ (projected = limit -> JS.gt projected limit = false).
Proof.
  intros now projected limit.
  split; [reflexivity|]. split; [reflexivity|]. split.
  - intros x y Hx Hy. rewrite Hx, Hy. apply gt_Fin.
  - intros ->. apply gt_irrefl.
Qed.

(** C3. [incrementLimitSent] reads the clock once, sets [limitSent] to the
    score projected at that instant plus one and [limitLastUpdate] to that
    instant; and in every [log] call, whatever it returns or throws, each
    request handed to [https.request] -- discard notice or real message -- is
    followed at once by exactly one [incrementLimitSent], with none besides,
    and a suppressed message causes neither. *)
Theorem incrementLimitSent_once_per_request (level msg : string)
    (meta : meta_arg) (callback : callback_fn) (o : SlackWebHook) (w : world) :
  let now := now_of w in
  (incrementLimitSent (o, w)
   = (Ok tt, (recorded now o, emit (RecordSend now) (advance w)))
   /\ limitSent (recorded now o) = JS.add (getLimitSentAtDate o now) (Fin 1)
   /\ limitLastUpdate (recorded now o) = now)
  /\ exists evs : list event,
       trace (snd (snd (log level msg meta callback (o, w))))
       = (trace w ++ evs)%list
       /\ paired evs = true
       /\ List.length (records evs) = List.length (requests evs)
       /\ (exceeded_at o now = true -> evs = []).
Proof.
  intros now. split; [repeat split|].
  destruct (exceeded_at o now) eqn:Hex; unfold now in Hex.
  - exists []. rewrite (log_discard _ _ _ _ _ _ Hex). simpl.
    rewrite app_nil_r. auto.
  - rewrite (log_accept _ _ _ _ _ _ Hex).
    destruct (payload_of o level msg meta) as [p|e].
    + cbn [snd]. rewrite trace_sent, trace_flushed. cbn [fst snd advance trace].
      rewrite <- app_assoc.
      destruct (0 <? limitNumDiscarded o)%N; eexists; split;
        try reflexivity; repeat split; intros; discriminate.
    + cbn [snd]. rewrite trace_flushed. cbn [fst snd advance trace].
      destruct (0 <? limitNumDiscarded o)%N; eexists; split;
        try reflexivity; repeat split; intros; discriminate.
Qed.

(** C5. A [log] call made while [isRateLimitExceeded] answers [true] returns
    normally having only added one to [limitNumDiscarded] (and read the
    clock): no request is issued, so no callback is ever registered or
    called, and [limitSent] and [limitLastUpdate] keep their values. *)
Theorem log_exceeded_only_counts (level msg : string) (meta : meta_arg)
    (callback : callback_fn) (o : SlackWebHook) (w : world) :
  fst (isRateLimitExceeded (o, w)) = Ok true ->
  let after := log level msg meta callback (o, w) in
  after = (Ok tt, (set_limitNumDiscarded (limitNumDiscarded o + 1)%N o, advance w))
  /\ limitNumDiscarded (fst (snd after)) = (limitNumDiscarded o + 1)%N
  /\ trace (snd (snd after)) = trace w
  /\ limitSent (fst (snd after)) = limitSent o
  /\ limitLastUpdate (fst (snd after)) = limitLastUpdate o.
Proof.
  intros H after. rewrite isRateLimitExceeded_run in H. cbn [fst] in H.
  assert (Hex : exceeded_at o (now_of w) = true) by congruence.
  unfold after. rewrite (log_discard _ _ _ _ _ _ Hex).
  repeat split.
Qed.

(** C10. With [meta] equal to [null] or [undefined], [sendSlackLog] throws a
    [TypeError] at [Object.keys(meta)] before any request exists; hence a
    [log] call that takes the sending branch throws that [TypeError], its
    message is never handed to [https.request] and its callback is never
    registered: the only request it can leave behind is the discard notice. *)
Theorem log_null_meta_throws (level msg : string) (meta : meta_arg)
    (callback : callback_fn) (o : SlackWebHook) (w : world) :
  meta = MetaNull \/ meta = MetaUndefined ->
  let e := TypeError "Cannot convert undefined or null to object" in
  sendSlackLog level msg meta callback (o, w) = (Throw e, (o, w))
  /\ (fst (isRateLimitExceeded (o, w)) = Ok false ->
      log level msg meta callback (o, w) = (Throw e, flushed (o, advance w))
      /\ requests (trace (snd (flushed (o, advance w))))
         = (requests (trace w)
            ++ (if (0 <? limitNumDiscarded o)%N
                then [slack_request o (notice_payload o) noop]
                else []))%list).
Proof.
  intros Hmeta e.
  assert (Hp : payload_of o level msg meta = Throw e)
    by (destruct Hmeta; subst; reflexivity).
  split.
  - rewrite sendSlackLog_run, Hp. reflexivity.
  - intros H. rewrite isRateLimitExceeded_run in H. cbn [fst] in H.
    assert (Hex : exceeded_at o (now_of w) = false) by congruence.
    rewrite (log_accept _ _ _ _ _ _ Hex), Hp. split; [reflexivity|].
    rewrite trace_flushed. cbn [fst snd advance trace].
    unfold requests. rewrite flat_map_app.
    destruct (0 <? limitNumDiscarded o)%N; reflexivity.
Qed.

End Limiter.

(* ===================================================================== *)
(** ** The discard notice *)
(* ===================================================================== *)

Section DiscardNotice.

Context {node : Node}.

(** C4. From a transport with nothing pending, three [log] calls that find the
    limit exceeded followed by one that does not (and whose payload builds)
    hand exactly two requests to [https.request]: first the notice, level
    [warn], message "winston-slack-webhook discarded 3 messages" (passed
    through the formatter when one is configured), metadata [{}] and hence no
    attachments, completion handler [noop]; then the fourth message with its
    own callback.  Each of the two is followed at once by its
    [incrementLimitSent], before any response can exist, and
    [limitNumDiscarded] ends at 0. *)
Theorem three_discards_then_notice_and_message
    (o : SlackWebHook) (w : world)
    (l1 m1 l2 m2 l3 m3 l4 m4 : string) (meta1 meta2 meta3 meta4 : meta_arg)
    (cb1 cb2 cb3 cb4 : callback_fn) (p4 : payload_t) :
  limitNumDiscarded o = 0%N ->
  exceeded_at o (clock w (ticks w)) = true ->
  exceeded_at o (clock w (S (ticks w))) = true ->
  exceeded_at o (clock w (S (S (ticks w)))) = true ->
  exceeded_at o (clock w (S (S (S (ticks w))))) = false ->
  payload_of o l4 m4 meta4 = Ok p4 ->
  let run :=
    (log l1 m1 meta1 cb1 ;; log l2 m2 meta2 cb2 ;; log l3 m3 meta3 cb3 ;;
     log l4 m4 meta4 cb4) (o, w) in
  let notice :=
    base_payload o
      (formatted o "warn" "winston-slack-webhook discarded 3 messages"
         (MetaObject [])) in
  fst run = Ok tt
  /\ trace (snd (snd run))
     = (trace w
        ++ [Request (slack_request o notice noop);
            RecordSend (clock w (4 + ticks w));
            Request (slack_request o p4 cb4);
            RecordSend (clock w (5 + ticks w))])%list
  /\ limitNumDiscarded (fst (snd run)) = 0%N
  /\ attachments notice = None
  /\ (formatter o = None ->
      text notice = "winston-slack-webhook discarded 3 messages").
Proof.
  intros H0 Hx1 Hx2 Hx3 Hx4 Hp run notice.
  assert (Hrun : run =
    (Ok tt, sent p4 cb4
              (flushed (set_limitNumDiscarded 3%N o,
                        advance (advance (advance (advance w))))))).
  { unfold run, bind.
    rewrite (log_discard l1 m1 meta1 cb1 o w Hx1).
    rewrite log_discard by exact Hx2.
    rewrite log_discard by exact Hx3.
    rewrite log_accept by exact Hx4.
    rewrite (@payload_of_config _ o) by reflexivity.
    rewrite Hp. cbn [limitNumDiscarded set_limitNumDiscarded].
    rewrite H0. reflexivity. }
  rewrite Hrun. cbn [fst snd].
  split; [reflexivity|]. split; [|split; [reflexivity|split]].
  - rewrite trace_sent, trace_flushed. cbn [fst snd].
    rewrite <- app_assoc. reflexivity.
  - reflexivity.
  - intros Hf. unfold notice, base_payload, formatted. rewrite Hf. reflexivity.
Qed.

End DiscardNotice.

(* ===================================================================== *)
(** ** The payload *)
(* ===================================================================== *)

Section Payload.

Context {node : Node}.

Lemma has_own_In (props : list (string * value)) (k : string) (v : value) :
  In (k, v) props -> has_own props k = true.
Proof.
  intros H. unfold has_own. apply existsb_exists. exists k. split.
  - apply in_map_iff. now exists (k, v).
  - apply String.eqb_refl.
Qed.

Lemma get_property_In (props : list (string * value)) (k : string) (v : value) :
  NoDup (map fst props) -> In (k, v) props -> get_property props k = v.
Proof.
  induction props as [|[k' v'] rest IH]; simpl; intros Hnd Hin; [easy|].
  inversion Hnd as [|? ? Hnotin Hnd']; subst.
  destruct (String.eqb_spec k' k) as [->|Hne].
  - destruct Hin as [Heq|Hin]; [congruence|].
    exfalso. apply Hnotin. apply in_map_iff. now exists (k, v).
  - destruct Hin as [Heq|Hin]; [congruence|]. now apply IH.
Qed.

(** The loop over a run of own properties pushes one attachment for each. *)
Lemma for_in_own (props part : list (string * value)) (level : string)
    (acc : list attachment) :
  has_own props "hasOwnProperty" = false ->
  NoDup (map fst props) -> incl part props ->
  for_in props (map fst part) (color_of level) acc
  = Ok (acc ++ map (attachment_of level) part)%list.
Proof.
  intros Hsh Hnd. revert acc.
  induction part as [|[k v] rest IH]; intros acc Hincl; simpl.
  - now rewrite app_nil_r.
  - assert (Hin : In (k, v) props) by (apply Hincl; now left).
    unfold hasOwnProperty. rewrite Hsh, (@has_own_In _ _ _ Hin).
    rewrite (@get_property_In _ _ _ Hnd Hin).
    rewrite IH by (intros x Hx; apply Hincl; now right).
    rewrite <- app_assoc. reflexivity.
Qed.

(** The payload for an object that has no property of its own called
    [hasOwnProperty]: one attachment per property, in order, coloured by
    level, and no [attachments] at all for the empty object. *)
Lemma payload_of_object (o : SlackWebHook) (level msg : string)
    (props : list (string * value)) :
  has_own props "hasOwnProperty" = false ->
  NoDup (map fst props) ->
  payload_of o level msg (MetaObject props)
  = Ok {| text := formatted o level msg (MetaObject props);
          payload_channel := channel o;
          payload_username := username o;
          icon_emoji := iconEmoji o;
          icon_url := iconUrl o;
          unfurl_links := unfurlLinks o;
          attachments :=
            match props with
            | [] => None
            | _ => Some (map (attachment_of level) props)
            end |}.
Proof.
  intros Hsh Hnd. unfold payload_of. cbn [Object_keys own_props].
  destruct props as [|kv rest]; [reflexivity|].
  cbn [map List.length Nat.ltb Nat.leb].
  change (fst kv :: map fst rest) with (map fst (kv :: rest)).
  rewrite (@for_in_own (kv :: rest) (kv :: rest) level [] Hsh Hnd (incl_refl _)).
  reflexivity.
Qed.

(** C9, at the input on which the code departs from it.  The loop asks
    [meta.hasOwnProperty(key)] on the metadata object itself, so metadata with
    an entry named [hasOwnProperty] makes [sendSlackLog] throw a [TypeError]
    instead of building one attachment for that entry; no request is
    issued. *)
Theorem sendSlackLog_shadowed_hasOwnProperty (callback : callback_fn)
    (o : SlackWebHook) (w : world) :
  sendSlackLog "error" "disk full"
    (MetaObject [("hasOwnProperty", VBool true)]) callback (o, w)
  = (Throw (TypeError "meta.hasOwnProperty is not a function"), (o, w)).
Proof.
  rewrite sendSlackLog_run. reflexivity.
Qed.

(** C8, as the code has it.  Once [sendSlackLog] has issued its request, every
    complete HTTP response is reported by exactly one call of the callback
    given to that [sendSlackLog]: [callback(null, body)] on status 200, and
    otherwise [callback(err)] with an [Error] whose message names the status
    code and the body; handling a response throws nothing. *)
Theorem response_reported_once (level msg : string) (meta : meta_arg)
    (callback : callback_fn) (o : SlackWebHook) (w : world) (p : payload_t)
    (statusCode : Z) (chunks : list string) :
  payload_of o level msg meta = Ok p ->
  let r := slack_request o p callback in
  let body := String.concat "" chunks in
  sendSlackLog level msg meta callback (o, w) = (Ok tt, (o, emit (Request r) w))
  /\ settle r (Responded 200 chunks) = Called [Invoke callback None (Some body)]
  /\ (statusCode <> 200%Z ->
      settle r (Responded statusCode chunks)
      = Called [Invoke callback
                  (Some (Error ("https request fails. statusCode "
                                ++ JS.string_of_Z statusCode
                                ++ ", body " ++ body)))
                  None]).
Proof.
  intros Hp r body. split; [|split].
  - rewrite sendSlackLog_run, Hp. reflexivity.
  - reflexivity.
  - intros Hsc. cbn [settle r slack_request req_on_response].
    unfold on_response. apply Z.eqb_neq in Hsc. rewrite Hsc. reflexivity.
Qed.

End Payload.

(* ===================================================================== *)
(** ** The limiter switched off *)
(* ===================================================================== *)

Section Unlimited.

Context {node : Node}.

(** With an infinite rate the decay constant is [Infinity * 0], that is NaN,
    whatever the window. *)
Lemma lambda_of_infinite_rate (options : option options_t) (w : world) :
  JS.or_else (configured_limit options) PInf = PInf ->
  limitPerSecond (fst (new_SlackWebHook options w)) = PInf
  /\ limitLambda (fst (new_SlackWebHook options w)) = NaN.
Proof.
  intros Hlim.
  assert (Hl : limitPerSecond (fst (new_SlackWebHook options w)) = PInf).
  { destruct options; exact Hlim. }
  split; [exact Hl|].
  assert (Hw : JS.truthy (limitWindowSeconds (fst (new_SlackWebHook options w)))
               = true).
  { unfold new_SlackWebHook. cbn [fst limitWindowSeconds].
    apply truthy_or_else. simpl. rewrite sign_pos; [reflexivity|lra]. }
  assert (Hdef : limitLambda (fst (new_SlackWebHook options w))
    = JS.mul (limitPerSecond (fst (new_SlackWebHook options w)))
        (JS.log (JS.add
           (JS.div (Fin 1)
              (JS.mul (limitPerSecond (fst (new_SlackWebHook options w)))
                 (limitWindowSeconds (fst (new_SlackWebHook options w)))))
           (Fin 1)))) by reflexivity.
  rewrite Hdef, Hl.
  assert (Hone : JS.mul PInf (JS.log (JS.add (Fin 0) (Fin 1))) = NaN).
  { cbn [JS.add JS.log]. rewrite sign_pos by lra. cbn [JS.mul].
    unfold JS.scale_inf. replace (0 + 1)%R with 1%R by lra.
    rewrite ln_1, sign_zero. reflexivity. }
  destruct (limitWindowSeconds (fst (new_SlackWebHook options w))) as [x| | |].
  - cbn [JS.truthy] in Hw. cbn [JS.mul]. unfold JS.scale_inf.
    destruct (JS.sign x); try discriminate; exact Hone.
  - exact Hone.
  - exact Hone.
  - discriminate.
Qed.

(** A NaN decay constant makes every projected score NaN, and NaN exceeds
    nothing. *)
Lemma exceeded_at_NaN (o : SlackWebHook) (now : Z) :
  limitLambda o = NaN -> exceeded_at o now = false.
Proof.
  intros H. unfold exceeded_at, getLimitSentAtDate. rewrite H.
  cbn [JS.neg]. rewrite mul_NaN_l. cbn [JS.exp]. rewrite mul_NaN_r.
  reflexivity.
Qed.

(** No call changes the decay constant, and while it is NaN nothing is ever
    counted as discarded. *)
Lemma run_call_unlimited (c : call) (s : state) :
  limitLambda (fst s) = NaN -> limitNumDiscarded (fst s) = 0%N ->
  limitLambda (fst (run_call c s)) = NaN
  /\ limitNumDiscarded (fst (run_call c s)) = 0%N.
Proof.
  destruct s as [o w]. cbn [fst]. intros Hl Hn.
  destruct c as [level msg meta callback| |]; cbn [run_call].
  - rewrite log_accept by now apply exceeded_at_NaN.
    unfold flushed. cbn [fst snd]. rewrite Hn. cbn [N.ltb N.compare].
    destruct (payload_of o level msg meta); cbn [fst snd sent]; auto.
  - rewrite incrementLimitSent_run. cbn [fst snd]. auto.
  - rewrite isRateLimitExceeded_run. cbn [fst snd]. auto.
Qed.

Lemma run_calls_unlimited (cs : list call) (s : state) :
  limitLambda (fst s) = NaN -> limitNumDiscarded (fst s) = 0%N ->
  limitLambda (fst (run_calls cs s)) = NaN
  /\ limitNumDiscarded (fst (run_calls cs s)) = 0%N.
Proof.
  revert s. induction cs as [|c cs IH]; intros s Hl Hn; [auto|].
  cbn [run_calls fold_left].
  destruct (run_call_unlimited c s Hl Hn) as [Hl' Hn'].
  exact (IH _ Hl' Hn').
Qed.

(** The transport built with an infinite rate never finds the limit
    exceeded, discards nothing and sends whatever builds a payload. *)
Lemma infinite_rate_run (options : option options_t) (w0 : world)
    (calls : list call) :
  JS.or_else (configured_limit options) PInf = PInf ->
  let s := run_calls calls (new_SlackWebHook options w0) in
  fst (isRateLimitExceeded s) = Ok false
  /\ limitNumDiscarded (fst s) = 0%N
  /\ forall level msg meta callback p,
       payload_of (fst s) level msg meta = Ok p ->
       log level msg meta callback s
       = (Ok tt, sent p callback (fst s, advance (snd s))).
Proof.
  intros Hlim s.
  destruct (lambda_of_infinite_rate options w0 Hlim) as [_ Hl0].
  assert (Hn0 : limitNumDiscarded (fst (new_SlackWebHook options w0)) = 0%N)
    by reflexivity.
  destruct (run_calls_unlimited calls _ Hl0 Hn0) as [Hl Hn].
  fold s in Hl, Hn. destruct s as [o w]. cbn [fst snd] in *.
  split; [|split].
  - rewrite isRateLimitExceeded_run. cbn [fst].
    now rewrite exceeded_at_NaN.
  - exact Hn.
  - intros level msg meta callback p Hp.
    rewrite log_accept by now apply exceeded_at_NaN.
    rewrite Hp. unfold flushed. cbn [fst snd]. rewrite Hn. reflexivity.
Qed.

(** Were the rate 0 to reach the formula of the constructor, the decay
    constant would be [0 * Infinity], NaN again, whatever the window. *)
Lemma lambda_of_zero_rate (windowSeconds : num) :
  JS.mul (Fin 0)
    (JS.log (JS.add (JS.div (Fin 1) (JS.mul (Fin 0) windowSeconds)) (Fin 1)))
  = NaN.
Proof.
  assert (Hz : JS.scale_inf true 0 = NaN)
    by (unfold JS.scale_inf; now rewrite sign_zero).
  assert (Hz' : JS.scale_inf false 0 = NaN)
    by (unfold JS.scale_inf; now rewrite sign_zero).
  destruct windowSeconds as [x| | |]; cbn [JS.mul].
  - rewrite Rmult_0_l. cbn [JS.div]. rewrite sign_zero.
    unfold JS.scale_inf at 1. rewrite sign_pos by lra.
    cbn [JS.add JS.log JS.mul]. exact Hz.
  - rewrite Hz. reflexivity.
  - rewrite Hz'. reflexivity.
  - reflexivity.
Qed.

(** C7. A transport constructed without [limitPerSecond], or with
    [limitPerSecond = Infinity], answers [false] to [isRateLimitExceeded]
    after every sequence of [log], [incrementLimitSent] and
    [isRateLimitExceeded] calls, of any length; its discard counter stays at
    0; and every [log] call whose payload builds hands its message to
    [https.request] and counts it. *)
Theorem infinite_rate_never_exceeded (options : option options_t) (w0 : world)
    (calls : list call) :
  configured_limit options = None \/ configured_limit options = Some PInf ->
  let s := run_calls calls (new_SlackWebHook options w0) in
  fst (isRateLimitExceeded s) = Ok false
  /\ limitNumDiscarded (fst s) = 0%N
  /\ forall level msg meta callback p,
       payload_of (fst s) level msg meta = Ok p ->
       log level msg meta callback s
       = (Ok tt, sent p callback (fst s, advance (snd s))).
Proof.
  intros Hcfg. apply infinite_rate_run.
  destruct Hcfg as [-> | ->]; reflexivity.
Qed.

(** C6, as the code has it.  [limitPerSecond: 0] is falsy, so the constructor
    replaces it by [Infinity]: the transport is the unlimited one,
    [isRateLimitExceeded] answers [false] after every sequence of calls and
    nothing is discarded. *)
Theorem zero_rate_is_unlimited (opts : options_t) (w0 : world)
    (calls : list call) :
  opt_limitPerSecond opts = Some (Fin 0) ->
  limitPerSecond (fst (new_SlackWebHook (Some opts) w0)) = PInf
  /\ let s := run_calls calls (new_SlackWebHook (Some opts) w0) in
     fst (isRateLimitExceeded s) = Ok false
     /\ limitNumDiscarded (fst s) = 0%N.
Proof.
  intros H0.
  assert (Hlim : JS.or_else (configured_limit (Some opts)) PInf = PInf).
  { cbn [configured_limit]. rewrite H0. cbn [JS.or_else JS.truthy].
    now rewrite sign_zero. }
  split.
  - exact (proj1 (lambda_of_infinite_rate (Some opts) w0 Hlim)).
  - intros s. destruct (infinite_rate_run (Some opts) w0 calls Hlim) as (A & B & _).
    split; assumption.
Qed.

End Unlimited.

(* ===================================================================== *)
(** ** Sending at exactly the allowed rate *)
(* ===================================================================== *)

Section SteadyRate.

Context {node : Node}.

Open Scope R_scope.

(** One period of decay at the constructor's [limitLambda] multiplies the
    score by [b / (1 + b)], where [b] is the budget. *)
Lemma decay_over_one_period (r win : R) :
  0 < r -> 0 < win ->
  Rtrigo_def.exp (- (r * ln (1 / (r * win) + 1)) * (1 / r))
  = r * win / (1 + r * win).
Proof.
  intros Hr Hw.
  assert (Hb : 0 < r * win) by now apply Rmult_lt_0_compat.
  assert (Hc : 0 < 1 / (r * win) + 1).
  { apply Rplus_le_lt_0_compat; [|lra].
    apply Rlt_le. apply Rdiv_lt_0_compat; lra. }
  replace (- (r * ln (1 / (r * win) + 1)) * (1 / r))
    with (- ln (1 / (r * win) + 1)) by (field; lra).
  rewrite exp_Ropp, exp_ln by exact Hc.
  field. split; lra.
Qed.

Lemma steady_score_0 (b : R) : steady_score b 0 = 0.
Proof. unfold steady_score. simpl. ring. Qed.

Lemma steady_score_S (b : R) (n : nat) :
  0 < b -> (steady_score b n + 1) * (b / (1 + b)) = steady_score b (S n).
Proof.
  intros Hb. unfold steady_score. simpl. field. lra.
Qed.

Lemma ratio_bounds (b : R) : 0 < b -> 0 < b / (1 + b) < 1.
Proof.
  intros Hb. split.
  - apply Rdiv_lt_0_compat; lra.
  - apply Rmult_lt_reg_r with (1 + b); [lra|].
    unfold Rdiv. rewrite Rmult_assoc, Rinv_l by lra. lra.
Qed.

Lemma steady_score_increasing (b : R) (n : nat) :
  0 < b -> steady_score b n < steady_score b (S n).
Proof.
  intros Hb. destruct (ratio_bounds Hb) as [Hq0 Hq1].
  assert (Hp : 0 < (b / (1 + b)) ^ n) by now apply pow_lt.
  unfold steady_score. simpl.
  set (q := b / (1 + b)) in *. set (p := q ^ n) in *.
  assert (q * p < p) by nra.
  nra.
Qed.

Lemma steady_score_below (b : R) (n : nat) : 0 < b -> steady_score b n < b.
Proof.
  intros Hb. destruct (ratio_bounds Hb) as [Hq0 Hq1].
  assert (Hp : 0 < (b / (1 + b)) ^ n) by now apply pow_lt.
  unfold steady_score. nra.
Qed.

Lemma steady_score_converges (b : R) : 0 < b -> Un_cv (steady_score b) b.
Proof.
  intros Hb eps Heps. destruct (ratio_bounds Hb) as [Hq0 Hq1].
  assert (Habs : Rabs (b / (1 + b)) < 1) by (rewrite Rabs_pos_eq; lra).
  assert (Hy : 0 < eps / b) by (apply Rdiv_lt_0_compat; lra).
  destruct (pow_lt_1_zero _ Habs _ Hy) as [N HN].
  exists N. intros n Hn. specialize (HN n Hn).
  assert (Hp : 0 < (b / (1 + b)) ^ n) by now apply pow_lt.
  rewrite Rabs_pos_eq in HN by lra.
  unfold R_dist, steady_score.
  replace (b * (1 - (b / (1 + b)) ^ n) - b) with (- (b * (b / (1 + b)) ^ n))
    by ring.
  rewrite Rabs_Ropp, Rabs_pos_eq by nra.
  apply Rmult_lt_reg_r with (/ b); [now apply Rinv_0_lt_compat|].
  replace (b * (b / (1 + b)) ^ n * / b) with ((b / (1 + b)) ^ n)
    by (field; lra).
  exact HN.
Qed.

(** What the constructor stores for a finite positive rate and window. *)
Lemma new_SlackWebHook_finite (options : options_t) (w : world) (r win : R) :
  opt_limitPerSecond options = Some (Fin r) ->
  opt_limitWindowSeconds options = Some (Fin win) ->
  0 < r -> 0 < win ->
  let o := fst (new_SlackWebHook (Some options) w) in
  limitPerSecond o = Fin r
  /\ limitWindowSeconds o = Fin win
  /\ limitLambda o = Fin (r * ln (1 / (r * win) + 1))
  /\ limitSent o = Fin 0
  /\ limitLastUpdate o = clock w (ticks w).
Proof.
  intros Hr Hw Hrpos Hwpos o.
  assert (Hb : 0 < r * win) by now apply Rmult_lt_0_compat.
  assert (Hc : 0 < 1 / (r * win) + 1).
  { apply Rplus_le_lt_0_compat; [|lra].
    apply Rlt_le. apply Rdiv_lt_0_compat; lra. }
  assert (Hl : limitPerSecond o = Fin r).
  { unfold o, new_SlackWebHook. cbn [fst limitPerSecond]. rewrite Hr.
    cbn [JS.or_else JS.truthy]. now rewrite sign_pos. }
  assert (Hwin : limitWindowSeconds o = Fin win).
  { unfold o, new_SlackWebHook. cbn [fst limitWindowSeconds]. rewrite Hw.
    cbn [JS.or_else JS.truthy]. now rewrite sign_pos. }
  repeat split; try assumption.
  change (limitLambda o)
    with (JS.mul (limitPerSecond o)
            (JS.log (JS.add (JS.div (Fin 1)
                               (JS.mul (limitPerSecond o) (limitWindowSeconds o)))
                       (Fin 1)))).
  rewrite Hl, Hwin. cbn [JS.mul]. rewrite div_Fin by lra.
  cbn [JS.add JS.log]. rewrite sign_pos by exact Hc. reflexivity.
Qed.

End SteadyRate.

Section SteadyRun.

Context {node : Node}.

Variables (options : options_t) (w0 : world) (r win : R).

Hypothesis rate_given : opt_limitPerSecond options = Some (Fin r).
Hypothesis window_given : opt_limitWindowSeconds options = Some (Fin win).
Hypothesis rate_pos : (0 < r)%R.
Hypothesis window_pos : (0 < win)%R.

(** Consecutive sends are [1 / r] seconds apart. *)
Hypothesis spacing :
  forall n : nat,
    (IZR (send_time w0 (S n) - send_time w0 n) / 1000 = 1 / r)%R.

Let start : state := new_SlackWebHook (Some options) w0.

(** The transport and the world after [n] sends. *)
Lemma after_sends_state (n : nat) :
  let s := after_sends n start in
  clock (snd s) = clock w0
  /\ ticks (snd s) = (ticks w0 + 1 + n)%nat
  /\ limitLambda (fst s) = Fin (r * ln (1 / (r * win) + 1))
  /\ budget (fst s) = Fin (r * win)
  /\ getLimitSentAtDate (fst s) (now_of (snd s))
     = Fin (steady_score (r * win) n)
  /\ match n with
     | O => True
     | S k => limitLastUpdate (fst s) = send_time w0 k
     end.
Proof.
  assert (Hb : (0 < r * win)%R) by now apply Rmult_lt_0_compat.
  induction n as [|n IH].
  - destruct (new_SlackWebHook_finite options w0 rate_given window_given
                rate_pos window_pos) as (Hp & Hwin & Hl & Hs & _).
    cbn [after_sends]. fold start in Hp, Hwin, Hl, Hs.
    split; [reflexivity|]. split; [unfold start; simpl; lia|].
    split; [exact Hl|].
    split; [unfold budget; rewrite Hp, Hwin; reflexivity|].
    split; [|exact I].
    rewrite (@getLimitSentAtDate_Fin _ _ _ _ Hs Hl).
    f_equal. rewrite steady_score_0. ring.
  - cbn zeta in IH. destruct IH as (Hc & Ht & Hl & Hbud & Hscore & _).
    cbn [after_sends]. destruct (after_sends n start) as [o w].
    cbn [fst snd] in *. rewrite incrementLimitSent_run. cbn [fst snd].
    assert (Hnow : now_of w = send_time w0 n).
    { unfold now_of, send_time. now rewrite Hc, Ht. }
    split; [exact Hc|]. split; [simpl; lia|]. split; [exact Hl|].
    split; [exact Hbud|]. split; [|exact Hnow].
    assert (Hnext : now_of (emit (RecordSend (now_of w)) (advance w))
                    = send_time w0 (S n)).
    { unfold now_of, send_time. simpl. rewrite Hc, Ht. f_equal. lia. }
    rewrite Hnext.
    assert (Hsent : limitSent (recorded (now_of w) o)
                    = Fin (steady_score (r * win) n + 1)).
    { cbn [recorded limitSent set_limitLastUpdate set_limitSent].
      rewrite Hscore. reflexivity. }
    assert (Hlam : limitLambda (recorded (now_of w) o)
                   = Fin (r * ln (1 / (r * win) + 1))) by exact Hl.
    rewrite (@getLimitSentAtDate_Fin _ _ _ _ Hsent Hlam).
    cbn [recorded limitLastUpdate set_limitLastUpdate set_limitSent].
    rewrite Hnow, spacing, decay_over_one_period by assumption.
    f_equal. now apply steady_score_S.
Qed.

End SteadyRun.

Section SteadyClaim.

Context {node : Node}.

(** The design of the decay constant, in exact arithmetic.  Build the
    transport with a finite [limitPerSecond = r > 0] and
    [limitWindowSeconds = win > 0], and call [incrementLimitSent] again and
    again, each call [1 / r] seconds after the one before.  Then
    [limitLambda] is [r * ln(1 / (r * win) + 1)], and the score
    [getLimitSentAtDate] projects just before each send is a finite number
    that grows strictly from send to send, tends to [r * win], and is never
    above it: [isRateLimitExceeded] would answer [false] at every one of
    those instants. *)
Theorem steady_rate_converges_to_budget (options : options_t) (w0 : world)
    (r win : R) :
  opt_limitPerSecond options = Some (Fin r) ->
  opt_limitWindowSeconds options = Some (Fin win) ->
  (0 < r)%R -> (0 < win)%R ->
  (forall n : nat,
     (IZR (send_time w0 (S n) - send_time w0 n) / 1000 = 1 / r)%R) ->
  limitLambda (fst (new_SlackWebHook (Some options) w0))
  = Fin (r * ln (1 / (r * win) + 1))
  /\ exists score : nat -> R,
       (forall n, score_before_send options w0 n = Fin (score n))
       /\ (forall n, (score n < score (S n))%R)
       /\ (forall n, (score n <= r * win)%R)
       /\ Un_cv score (r * win)
       /\ (forall n,
             let s := after_sends n (new_SlackWebHook (Some options) w0) in
             fst (isRateLimitExceeded s) = Ok false).
Proof.
  intros Hr Hw Hrpos Hwpos Hsp.
  assert (Hb : (0 < r * win)%R) by now apply Rmult_lt_0_compat.
  split.
  - exact (proj1 (proj2 (proj2
      (after_sends_state options w0 Hr Hw Hrpos Hwpos Hsp 0)))).
  - exists (steady_score (r * win)).
    split; [|split; [|split; [|split]]].
    + intros n. unfold score_before_send.
      exact (proj1 (proj2 (proj2 (proj2 (proj2
        (after_sends_state options w0 Hr Hw Hrpos Hwpos Hsp n)))))).
    + intros n. now apply steady_score_increasing.
    + intros n. apply Rlt_le. now apply steady_score_below.
    + now apply steady_score_converges.
    + intros n s.
      destruct (after_sends_state options w0 Hr Hw Hrpos Hwpos Hsp n)
        as (_ & _ & _ & Hbud & Hsc & _).
      fold s in Hsc, Hbud. destruct s as [o w].
      rewrite isRateLimitExceeded_run. cbn [fst snd] in *.
      unfold exceeded_at. rewrite Hsc, Hbud. f_equal.
      destruct (JS.gt (Fin (steady_score (r * win) n)) (Fin (r * win))) eqn:E;
        [|reflexivity].
      apply gt_Fin in E.
      pose proof (@steady_score_below (r * win) n Hb). lra.
Qed.

End SteadyClaim.

(** C1, on the code's own numbers.  With [limitPerSecond = 0.25] and
    [limitWindowSeconds = 3], sends four seconds apart are exactly at the
    allowed rate.  In double precision the projected score stays within the
    budget 0.75 before each of the first 43 sends, but before the 44th it is
    the next double above 0.75 and [isRateLimitExceeded] answers [true]: the
    score does exceed the budget at a send instant, by one rounding error,
    and a stream at the allowed rate is throttled. *)
Theorem steady_stream_exceeds_budget_in_doubles :
  forallb (fun n => negb (Doubles.steady_exceeded n)) (seq 0 43) = true
  /\ Doubles.steady_exceeded 43 = true
  /\ Doubles.steady_score_before 43 = Doubles.above_steady_budget
  /\ PrimFloat.ltb Doubles.steady_budget Doubles.above_steady_budget = true.
Proof.
  repeat split; vm_compute; reflexivity.
Qed.

(* ===================================================================== *)
(** ** The statements on concrete transports *)
(* ===================================================================== *)

(** A score of 2 against a budget of 1, read at the instant it was written. *)
Lemma demo_hook_exceeded (l : R) (n : N) :
  exceeded_at (demo_hook (Fin l) (Fin 2) n) 0 = true.
Proof.
  unfold exceeded_at. rewrite demo_hook_budget.
  rewrite (@getLimitSentAtDate_Fin _ 0%Z 2%R l) by reflexivity.
  apply gt_Fin. cbn [limitLastUpdate demo_hook].
  replace (- l * (IZR (0 - 0) / 1000))%R with 0%R by (simpl; lra).
  rewrite exp_0. lra.
Qed.

(** The same score one second later, with decay constant 1: [2 / e < 1]. *)
Lemma demo_hook_recovered (n : N) :
  exceeded_at (demo_hook (Fin 1) (Fin 2) n) 1000 = false.
Proof.
  unfold exceeded_at. rewrite demo_hook_budget.
  rewrite (@getLimitSentAtDate_Fin _ 1000%Z 2%R 1%R) by reflexivity.
  cbn [limitLastUpdate demo_hook].
  replace (- (1) * (IZR (1000 - 0) / 1000))%R with (- (1))%R by (simpl; lra).
  destruct (JS.gt (Fin (2 * Rtrigo_def.exp (- (1)))) (Fin 1)) eqn:E;
    [|reflexivity].
  apply gt_Fin in E. rewrite exp_Ropp in E.
  assert (H2 : (2 < Rtrigo_def.exp 1)%R).
  { pose proof (exp_ineq1 1). lra. }
  assert (Hinv : (/ Rtrigo_def.exp 1 < / 2)%R)
    by (apply Rinv_lt_contravar; lra).
  lra.
Qed.

(** One message per second against a window of one second, the clock
    advancing one second per reading. *)
Lemma steady_rate_converges_to_budget_witness :
  let options := rate_options (Some (Fin 1)) (Some (Fin 1)) in
  (forall n : nat,
     (IZR (send_time second_world (S n) - send_time second_world n) / 1000
      = 1 / 1)%R)
  /\ limitLambda (fst (@new_SlackWebHook demo_node (Some options) second_world))
     = Fin (1 * ln (1 / (1 * 1) + 1))
  /\ exists score : nat -> R,
       (forall n,
          @score_before_send demo_node options second_world n = Fin (score n))
       /\ (forall n, (score n < score (S n))%R)
       /\ (forall n, (score n <= 1 * 1)%R)
       /\ Un_cv score (1 * 1)
       /\ (forall n,
             let s := after_sends n
                        (@new_SlackWebHook demo_node (Some options) second_world)
             in fst (isRateLimitExceeded s) = Ok false).
Proof.
  intros options.
  assert (Hsp : forall n : nat,
     (IZR (send_time second_world (S n) - send_time second_world n) / 1000
      = 1 / 1)%R).
  { intros n. unfold send_time, second_world. cbn [clock ticks].
    replace (1000 * Z.of_nat (0 + 1 + S n) - 1000 * Z.of_nat (0 + 1 + n))%Z
      with 1000%Z by lia.
    lra. }
  split; [exact Hsp|].
  apply (@steady_rate_converges_to_budget demo_node options second_world 1 1).
  - reflexivity.
  - reflexivity.
  - lra.
  - lra.
  - exact Hsp.
Defined.

(** A score equal to the budget is not over it. *)
Lemma isRateLimitExceeded_strict_witness :
  fst (isRateLimitExceeded (demo_hook (Fin 0) (Fin 1) 0, still_world))
  = Ok false.
Proof.
  destruct (isRateLimitExceeded_strict (demo_hook (Fin 0) (Fin 1) 0) still_world)
    as (Hrun & Hproj & _ & Heq).
  rewrite Hrun. cbn [fst]. f_equal. apply Heq.
  rewrite <- Hproj.
  change (now_of still_world) with 0%Z.
  rewrite demo_hook_score. simpl. f_equal. lra.
Defined.

(** A suppressed message leaves no request and no count behind. *)
Lemma incrementLimitSent_once_per_request_witness :
  exceeded_at (demo_hook (Fin 0) (Fin 2) 0) (now_of still_world) = true
  /\ trace (snd (snd (@log demo_node "info" "hello" (MetaObject [])
                        (UserCallback 0)
                        (demo_hook (Fin 0) (Fin 2) 0, still_world))))
     = [].
Proof.
  assert (Hex : exceeded_at (demo_hook (Fin 0) (Fin 2) 0) (now_of still_world)
                = true) by apply demo_hook_exceeded.
  split; [exact Hex|].
  destruct (@incrementLimitSent_once_per_request demo_node "info" "hello"
              (MetaObject []) (UserCallback 0)
              (demo_hook (Fin 0) (Fin 2) 0) still_world)
    as (_ & evs & Htrace & _ & _ & Hnone).
  rewrite Htrace, (Hnone Hex). reflexivity.
Defined.

(** The fifth message dropped in a row. *)
Lemma log_exceeded_only_counts_witness :
  fst (isRateLimitExceeded (demo_hook (Fin 0) (Fin 2) 4, still_world)) = Ok true
  /\ @log demo_node "error" "disk full" (MetaObject [("host", VString "db1")])
       (UserCallback 7) (demo_hook (Fin 0) (Fin 2) 4, still_world)
     = (Ok tt, (demo_hook (Fin 0) (Fin 2) 5, advance still_world)).
Proof.
  assert (Hex : fst (isRateLimitExceeded
                       (demo_hook (Fin 0) (Fin 2) 4, still_world)) = Ok true).
  { rewrite isRateLimitExceeded_run. cbn [fst]. f_equal.
    apply demo_hook_exceeded. }
  split; [exact Hex|].
  exact (proj1 (@log_exceeded_only_counts demo_node "error" "disk full"
                  (MetaObject [("host", VString "db1")]) (UserCallback 7)
                  (demo_hook (Fin 0) (Fin 2) 4) still_world Hex)).
Defined.

(** [sendSlackLog] on [null] metadata. *)
Lemma log_null_meta_throws_witness :
  @sendSlackLog demo_node "info" "hello" MetaNull (UserCallback 1)
    (demo_hook (Fin 0) (Fin 0) 0, still_world)
  = (Throw (TypeError "Cannot convert undefined or null to object"),
     (demo_hook (Fin 0) (Fin 0) 0, still_world)).
Proof.
  exact (proj1 (@log_null_meta_throws demo_node "info" "hello" MetaNull
                  (UserCallback 1) (demo_hook (Fin 0) (Fin 0) 0) still_world
                  (or_introl eq_refl))).
Defined.

(** Three messages within the same millisecond as a burst that filled the
    budget twice over, a fourth one a second later. *)
Lemma three_discards_then_notice_and_message_witness :
  let o := demo_hook (Fin 1) (Fin 2) 0 in
  let run :=
    (@log demo_node "info" "one" (MetaObject []) (UserCallback 1) ;;
     @log demo_node "info" "two" (MetaObject []) (UserCallback 2) ;;
     @log demo_node "info" "three" (MetaObject []) (UserCallback 3) ;;
     @log demo_node "info" "four" (MetaObject []) (UserCallback 4))
      (o, late_world) in
  fst run = Ok tt
  /\ trace (snd (snd run))
     = [Request (@slack_request demo_node o
                   (base_payload o "winston-slack-webhook discarded 3 messages")
                   noop);
        RecordSend 1000;
        Request (@slack_request demo_node o (base_payload o "four")
                   (UserCallback 4));
        RecordSend 1000]
  /\ limitNumDiscarded (fst (snd run)) = 0%N.
Proof.
  intros o run.
  destruct (@three_discards_then_notice_and_message demo_node o late_world
              "info" "one" "info" "two" "info" "three" "info" "four"
              (MetaObject []) (MetaObject []) (MetaObject []) (MetaObject [])
              (UserCallback 1) (UserCallback 2) (UserCallback 3)
              (UserCallback 4) (base_payload o "four"))
    as (Hok & Htrace & Hcount & _).
  - reflexivity.
  - apply demo_hook_exceeded.
  - apply demo_hook_exceeded.
  - apply demo_hook_exceeded.
  - apply demo_hook_recovered.
  - reflexivity.
  - split; [exact Hok|]. split; [exact Htrace|exact Hcount].
Defined.

(** The default transport after a few calls. *)
Lemma infinite_rate_never_exceeded_witness :
  let s := @run_calls demo_node
             [CallLog "info" "hello" (MetaObject []) (UserCallback 1);
              CallIncrementLimitSent;
              CallLog "warn" "again" (MetaObject []) (UserCallback 2)]
             (@new_SlackWebHook demo_node None still_world) in
  fst (isRateLimitExceeded s) = Ok false
  /\ limitNumDiscarded (fst s) = 0%N.
Proof.
  intros s.
  destruct (@infinite_rate_never_exceeded demo_node None still_world
              [CallLog "info" "hello" (MetaObject []) (UserCallback 1);
               CallIncrementLimitSent;
               CallLog "warn" "again" (MetaObject []) (UserCallback 2)]
              (or_introl eq_refl))
    as (Hex & Hn & _).
  split; [exact Hex|exact Hn].
Defined.

(** [limitPerSecond: 0] builds the unlimited transport. *)
Lemma zero_rate_is_unlimited_witness :
  let opts := rate_options (Some (Fin 0)) None in
  opt_limitPerSecond opts = Some (Fin 0)
  /\ limitPerSecond (fst (@new_SlackWebHook demo_node (Some opts) still_world))
     = PInf
  /\ fst (isRateLimitExceeded
            (@run_calls demo_node [CallIncrementLimitSent]
               (@new_SlackWebHook demo_node (Some opts) still_world)))
     = Ok false.
Proof.
  intros opts. split; [reflexivity|].
  destruct (@zero_rate_is_unlimited demo_node opts still_world
              [CallIncrementLimitSent] eq_refl) as (Hlim & Hex & _).
  split; [exact Hlim|exact Hex].
Defined.

(** C6 fails on the code: built with [limitPerSecond: 0], the transport does
    not find the limit exceeded after one [incrementLimitSent]. *)
Lemma zero_rate_not_exceeded_after_send :
  let built := @new_SlackWebHook demo_node
                 (Some (rate_options (Some (Fin 0)) None)) still_world in
  fst (isRateLimitExceeded (snd (incrementLimitSent built))) = Ok false
  /\ fst (isRateLimitExceeded (snd (incrementLimitSent built))) <> Ok true.
Proof.
  intros built.
  assert (Hlim : JS.or_else
            (configured_limit (Some (rate_options (Some (Fin 0)) None))) PInf
            = PInf).
  { cbn [configured_limit rate_options opt_limitPerSecond JS.or_else JS.truthy].
    now rewrite sign_zero. }
  destruct (@infinite_rate_run demo_node _ still_world [CallIncrementLimitSent]
              Hlim) as (Hex & _).
  change (fst (isRateLimitExceeded (snd (incrementLimitSent built))) = Ok false)
    in Hex.
  split; [exact Hex|]. rewrite Hex. discriminate.
Qed.

(** A 200 and a 500 answer to the same request. *)
Lemma response_reported_once_witness :
  let o := demo_hook (Fin 0) (Fin 0) 0 in
  let r := @slack_request demo_node o (base_payload o "hello") (UserCallback 9) in
  @sendSlackLog demo_node "info" "hello" (MetaObject []) (UserCallback 9)
    (o, still_world)
  = (Ok tt, (o, emit (Request r) still_world))
  /\ settle r (Responded 200 ["o"; "k"])
     = Called [Invoke (UserCallback 9) None (Some "ok")]
  /\ settle r (Responded 500 ["oops"])
     = Called [Invoke (UserCallback 9)
                 (Some (Error "https request fails. statusCode 500, body oops"))
                 None].
Proof.
  intros o r.
  assert (Hp : @payload_of demo_node o "info" "hello" (MetaObject [])
               = Ok (base_payload o "hello")) by reflexivity.
  split; [|split].
  - exact (proj1 (@response_reported_once demo_node "info" "hello"
                    (MetaObject []) (UserCallback 9) o still_world
                    (base_payload o "hello") 200 ["o"; "k"] Hp)).
  - exact (proj1 (proj2 (@response_reported_once demo_node "info" "hello"
                    (MetaObject []) (UserCallback 9) o still_world
                    (base_payload o "hello") 200 ["o"; "k"] Hp))).
  - apply (proj2 (proj2 (@response_reported_once demo_node "info" "hello"
                    (MetaObject []) (UserCallback 9) o still_world
                    (base_payload o "hello") 500 ["oops"] Hp))).
    discriminate.
Defined.

(** C8 fails on the code: the request carries no ['error'] listener, so a
    connection failure reaches no callback and is thrown. *)
Lemma transport_failure_is_uncaught :
  let o := demo_hook (Fin 0) (Fin 0) 0 in
  let after := @sendSlackLog demo_node "info" "hello" (MetaObject [])
                 (UserCallback 9) (o, still_world) in
  map (fun r => settle r (Failed (Error "connect ECONNREFUSED")))
    (requests (trace (snd (snd after))))
  = [Uncaught (Error "connect ECONNREFUSED")].
Proof. reflexivity. Qed.

(* ===================================================================== *)
(** ** Further properties: building and sending *)
(* ===================================================================== *)

Section SendingFacts.

Context {node : Node}.

(** Without a shadowing property the loop never throws. *)
Lemma for_in_total (props : list (string * value)) (keys : list string)
    (c : string) (acc : list attachment) :
  has_own props "hasOwnProperty" = false ->
  exists a, for_in props keys c acc = Ok a.
Proof.
  intros Hsh. revert acc.
  induction keys as [|k rest IH]; intros acc; simpl; [now eexists|].
  unfold hasOwnProperty. rewrite Hsh.
  destruct (has_own props k); apply IH.
Qed.

(** With one, it throws at the first key. *)
Lemma for_in_shadowed (props : list (string * value)) (k : string)
    (rest : list string) (c : string) (acc : list attachment) :
  has_own props "hasOwnProperty" = true ->
  for_in props (k :: rest) c acc
  = Throw (TypeError "meta.hasOwnProperty is not a function").
Proof.
  intros Hsh. simpl. unfold hasOwnProperty. now rewrite Hsh.
Qed.

(** [payload_of] succeeds exactly on renderable metadata, and what it throws
    is a [TypeError]. *)
Lemma payload_of_renderable (o : SlackWebHook) (level msg : string)
    (meta : meta_arg) :
  if renderable meta
  then exists p, payload_of o level msg meta = Ok p
                 /\ text p = formatted o level msg meta
  else exists m, payload_of o level msg meta = Throw (TypeError m).
Proof.
  destruct meta as [| |props]; cbn [renderable]; try (eexists; reflexivity).
  unfold payload_of. cbn [Object_keys own_props].
  destruct props as [|kv rest].
  - cbn. eexists. split; reflexivity.
  - cbn [map List.length Nat.ltb Nat.leb].
    destruct (has_own (kv :: rest) "hasOwnProperty") eqn:Hsh; cbn [negb].
    + rewrite for_in_shadowed by exact Hsh. eexists. reflexivity.
    + destruct (@for_in_total (kv :: rest) (fst kv :: map fst rest)
                  (color_of level) [] Hsh) as [a Ha].
      rewrite Ha. eexists. split; reflexivity.
Qed.

(** X2. For metadata whose keys are distinct and none of which is
    [hasOwnProperty], the one request [sendSlackLog] issues carries the
    serialised payload with the transport's channel, user name, icons and
    unfurl flag, the formatted message as text, and one attachment per
    metadata entry, in the order of the entries, each with the colour of the
    level; for [{}] the payload has no [attachments] property. *)
Theorem sendSlackLog_one_attachment_per_entry (level msg : string)
    (props : list (string * value)) (callback : callback_fn)
    (o : SlackWebHook) (w : world) :
  has_own props "hasOwnProperty" = false ->
  NoDup (map fst props) ->
  let p :=
    {| text := formatted o level msg (MetaObject props);
       payload_channel := channel o;
       payload_username := username o;
       icon_emoji := iconEmoji o;
       icon_url := iconUrl o;
       unfurl_links := unfurlLinks o;
       attachments :=
         match props with
         | [] => None
         | _ => Some (map (attachment_of level) props)
         end |} in
  sendSlackLog level msg (MetaObject props) callback (o, w)
  = (Ok tt, (o, emit (Request (slack_request o p callback)) w))
  /\ req_data (slack_request o p callback) = JSON_stringify p
  /\ match attachments p with
     | Some a => List.length a = List.length props /\ props <> []
     | None => props = []
     end.
Proof.
  intros Hsh Hnd p. split; [|split].
  - rewrite sendSlackLog_run, (@payload_of_object _ o level msg props Hsh Hnd).
    reflexivity.
  - reflexivity.
  - unfold p. cbn [attachments]. destruct props as [|kv rest]; [reflexivity|].
    split; [now rewrite length_map|discriminate].
Qed.

End SendingFacts.

(* ===================================================================== *)
(** ** Further properties: what the constructor stores *)
(* ===================================================================== *)

Section ConstructorFacts.

Context {node : Node}.

Open Scope R_scope.

Lemma gt_PInf_r (a : num) : JS.gt a PInf = false.
Proof. destruct a; reflexivity. Qed.

Lemma truthy_Fin (x : R) : JS.truthy (Fin x) = true <-> x <> 0.
Proof.
  cbn [JS.truthy]. unfold JS.sign.
  destruct (Rcompare_spec x 0); split; intros; try lra; congruence.
Qed.

(** The decay constant is computed once, from the two limits stored. *)
Lemma limitLambda_new (options : option options_t) (w : world) :
  let o := fst (new_SlackWebHook options w) in
  limitLambda o
  = JS.mul (limitPerSecond o)
      (JS.log (JS.add (JS.div (Fin 1)
                         (JS.mul (limitPerSecond o) (limitWindowSeconds o)))
                 (Fin 1))).
Proof. reflexivity. Qed.

Lemma lambda_formula_finite (r win : R) :
  r * win <> 0 -> 0 < 1 / (r * win) + 1 ->
  JS.mul (Fin r)
    (JS.log (JS.add (JS.div (Fin 1) (JS.mul (Fin r) (Fin win))) (Fin 1)))
  = Fin (r * ln (1 / (r * win) + 1)).
Proof.
  intros Hb Hc. cbn [JS.mul]. rewrite div_Fin by exact Hb.
  cbn [JS.add JS.log]. rewrite sign_pos by exact Hc. reflexivity.
Qed.

(** X5. Whatever the options, the two limits the constructor stores are
    never 0 and never NaN: [limitPerSecond] is the option given when that is
    a number other than 0 and NaN and [Infinity] otherwise, and
    [limitWindowSeconds] is the option given when that is a number other than
    0 and NaN and 30 otherwise.  A limit of 0 can therefore not be
    configured. *)
Theorem constructed_limits_are_truthy (options : option options_t) (w : world) :
  let o := fst (new_SlackWebHook options w) in
  let given := match options with Some opts => opts | None => empty_options end in
  JS.truthy (limitPerSecond o) = true
  /\ JS.truthy (limitWindowSeconds o) = true
  /\ limitPerSecond o
     = match opt_limitPerSecond given with
       | Some x => if JS.truthy x then x else PInf
       | None => PInf
       end
  /\ limitWindowSeconds o
     = match opt_limitWindowSeconds given with
       | Some x => if JS.truthy x then x else Fin 30
       | None => Fin 30
       end
  /\ limitPerSecond o <> Fin 0 /\ limitPerSecond o <> NaN
  /\ limitWindowSeconds o <> Fin 0 /\ limitWindowSeconds o <> NaN.
Proof.
  intros o given.
  assert (Hr : JS.truthy (limitPerSecond o) = true).
  { unfold o, new_SlackWebHook. cbn [fst limitPerSecond].
    now apply truthy_or_else. }
  assert (Hw : JS.truthy (limitWindowSeconds o) = true).
  { unfold o, new_SlackWebHook. cbn [fst limitWindowSeconds].
    apply truthy_or_else. apply truthy_Fin. lra. }
  assert (Hz : JS.truthy (Fin 0) = false)
    by (cbn [JS.truthy]; now rewrite sign_zero).
  split; [exact Hr|]. split; [exact Hw|].
  split; [reflexivity|]. split; [reflexivity|].
  repeat split; intros H; rewrite H in *; first [congruence|discriminate].
Qed.

(** X7. A transport whose stored rate and window are both positive (finite or
    infinite, given or defaulted) is not over its limit when first asked,
    whatever its clock reads then, even an instant before its construction. *)
Theorem fresh_transport_not_exceeded (options : option options_t) (w : world) :
  let s := new_SlackWebHook options w in
  JS.gt (limitPerSecond (fst s)) (Fin 0) = true ->
  JS.gt (limitWindowSeconds (fst s)) (Fin 0) = true ->
  fst (isRateLimitExceeded s) = Ok false.
Proof.
  intros s Hr Hw.
  destruct s as [o w'] eqn:Es.
  assert (Ho : o = fst (new_SlackWebHook options w)) by (fold s; now rewrite Es).
  cbn [fst] in Hr, Hw.
  rewrite isRateLimitExceeded_run. cbn [fst]. f_equal.
  pose proof (limitLambda_new options w) as Hl. cbn zeta in Hl.
  rewrite <- Ho in Hl.
  assert (Hs : limitSent o = Fin 0) by (rewrite Ho; reflexivity).
  destruct (limitPerSecond o) as [r| | |] eqn:Er; try discriminate.
  - apply gt_Fin in Hr.
    destruct (limitWindowSeconds o) as [win| | |] eqn:Ew; try discriminate.
    + apply gt_Fin in Hw.
      assert (Hb : 0 < r * win) by now apply Rmult_lt_0_compat.
      assert (Hc : 0 < 1 / (r * win) + 1).
      { apply Rplus_le_lt_0_compat; [|lra].
        apply Rlt_le. apply Rdiv_lt_0_compat; lra. }
      rewrite lambda_formula_finite in Hl by lra.
      unfold exceeded_at, budget. rewrite Er, Ew.
      rewrite (@getLimitSentAtDate_Fin _ _ _ _ Hs Hl). cbn [JS.mul].
      destruct (JS.gt _ _) eqn:E; [|reflexivity].
      apply gt_Fin in E. lra.
    + unfold exceeded_at, budget. rewrite Er, Ew. cbn [JS.mul].
      unfold JS.scale_inf. rewrite (@sign_pos r Hr). apply gt_PInf_r.
  - apply exceeded_at_NaN. rewrite Ho.
    apply lambda_of_infinite_rate.
    rewrite Ho in Er. destruct options; exact Er.
Qed.

End ConstructorFacts.

(* ===================================================================== *)
(** ** Further properties: what no call changes *)
(* ===================================================================== *)

Section Frames.

Context {node : Node}.

Lemma same_config_refl (o : SlackWebHook) : same_config o o.
Proof. unfold same_config. repeat split. Qed.

Lemma same_config_trans (a b c : SlackWebHook) :
  same_config a b -> same_config b c -> same_config a c.
Proof.
  unfold same_config. intros H1 H2.
  repeat match goal with H : _ /\ _ |- _ => destruct H end.
  repeat split; congruence.
Qed.

Lemma same_config_recorded (now : Z) (o : SlackWebHook) :
  same_config (recorded now o) o.
Proof. unfold same_config. repeat split. Qed.

Lemma same_config_flushed (s : state) : same_config (fst (flushed s)) (fst s).
Proof.
  unfold flushed. destruct (0 <? limitNumDiscarded (fst s))%N.
  - unfold same_config. repeat split.
  - apply same_config_refl.
Qed.

Lemma slack_request_config (a b : SlackWebHook) (p : payload_t)
    (callback : callback_fn) :
  same_config a b -> slack_request a p callback = slack_request b p callback.
Proof.
  unfold same_config. intros H.
  repeat match goal with H : _ /\ _ |- _ => destruct H end.
  unfold slack_request. congruence.
Qed.

(** One call keeps the configuration and adds requests of the transport's
    own making only. *)
Lemma run_call_frame (c : call) (s : state) :
  same_config (fst (run_call c s)) (fst s)
  /\ clock (snd (run_call c s)) = clock (snd s)
  /\ exists reqs,
       requests (trace (snd (run_call c s)))
       = (requests (trace (snd s)) ++ reqs)%list
       /\ Forall (fun r => exists p cb, r = slack_request (fst s) p cb) reqs.
Proof.
  destruct s as [o w].
  destruct c as [level msg meta callback| |]; cbn [run_call fst snd].
  - destruct (exceeded_at o (now_of w)) eqn:Hex.
    + rewrite (log_discard _ _ _ _ _ _ Hex). cbn [fst snd].
      split; [unfold same_config; repeat split|]. split; [reflexivity|].
      exists []. rewrite app_nil_r. split; [reflexivity|constructor].
    + rewrite (log_accept _ _ _ _ _ _ Hex).
      pose proof (same_config_flushed (o, advance w)) as Hcf.
      cbn [fst] in Hcf.
      assert (Hclock : clock (snd (flushed (o, advance w))) = clock w).
      { unfold flushed. cbn [fst snd].
        destruct (0 <? limitNumDiscarded o)%N; reflexivity. }
      assert (Hfl : exists reqs,
        requests (trace (snd (flushed (o, advance w))))
        = (requests (trace w) ++ reqs)%list
        /\ Forall (fun r => exists p cb, r = slack_request o p cb) reqs).
      { rewrite trace_flushed. cbn [fst snd advance trace].
        unfold requests at 1. rewrite flat_map_app.
        destruct (0 <? limitNumDiscarded o)%N.
        - eexists. split; [reflexivity|]. cbn. constructor; [|constructor].
          now eexists _, _.
        - exists []. split; [reflexivity|constructor]. }
      destruct (payload_of o level msg meta) as [p|e]; cbn [fst snd].
      * split; [|split].
        -- eapply same_config_trans; [apply same_config_recorded|exact Hcf].
        -- exact Hclock.
        -- destruct Hfl as (reqs & Hreqs & Hall).
           exists (reqs ++ [slack_request o p callback])%list. split.
           ++ rewrite trace_sent. unfold requests at 1. rewrite flat_map_app.
              fold (requests (trace (snd (flushed (o, advance w))))).
              rewrite Hreqs, <- app_assoc. cbn [flat_map app].
              now rewrite (slack_request_config p callback Hcf).
           ++ apply Forall_app. split; [exact Hall|].
              constructor; [now eexists _, _|constructor].
      * split; [exact Hcf|]. split; [exact Hclock|exact Hfl].
  - rewrite incrementLimitSent_run. cbn [fst snd].
    split; [apply same_config_recorded|]. split; [reflexivity|].
    exists []. split; [|constructor]. cbn [emit advance trace].
    unfold requests. rewrite flat_map_app. reflexivity.
  - rewrite isRateLimitExceeded_run. cbn [fst snd].
    split; [apply same_config_refl|]. split; [reflexivity|].
    exists []. rewrite app_nil_r. split; [reflexivity|constructor].
Qed.

Lemma run_calls_frame (cs : list call) (s : state) :
  same_config (fst (run_calls cs s)) (fst s)
  /\ clock (snd (run_calls cs s)) = clock (snd s)
  /\ exists reqs,
       requests (trace (snd (run_calls cs s)))
       = (requests (trace (snd s)) ++ reqs)%list
       /\ Forall (fun r => exists p cb, r = slack_request (fst s) p cb) reqs.
Proof.
  revert s. induction cs as [|c cs IH]; intros s.
  - cbn [run_calls fold_left]. split; [apply same_config_refl|].
    split; [reflexivity|]. exists []. rewrite app_nil_r.
    split; [reflexivity|constructor].
  - cbn [run_calls fold_left].
    destruct (run_call_frame c s) as (Hc1 & Hk1 & reqs1 & Hr1 & Ha1).
    destruct (IH (run_call c s)) as (Hc2 & Hk2 & reqs2 & Hr2 & Ha2).
    fold (run_calls cs (run_call c s)).
    split; [eapply same_config_trans; eassumption|].
    split; [congruence|].
    exists (reqs1 ++ reqs2)%list. split.
    + rewrite Hr2, Hr1. now rewrite app_assoc.
    + apply Forall_app. split; [exact Ha1|].
      eapply Forall_impl; [|exact Ha2].
      intros r (p & cb & ->). exists p, cb.
      now apply slack_request_config.
Qed.

(** X8. No sequence of [log], [incrementLimitSent] and [isRateLimitExceeded]
    calls, however long and whatever it throws, changes the configuration of
    a transport: name, level, formatter, channel, user name, icons, unfurl
    flag, webhook URL with its host, port and path, the two limits and the
    decay constant derived from them at construction. *)
Theorem configuration_never_changes (calls : list call) (s : state) :
  same_config (fst (run_calls calls s)) (fst s).
Proof. exact (proj1 (run_calls_frame calls s)). Qed.

(** X9. Every request a transport ever issues, over any sequence of calls
    since its construction, is a POST with content type [application/json]
    and a content length equal to the byte length of its body, the body being
    a serialised payload, addressed to the host, port and path parsed from the
    webhook URL at construction (port 443 when the URL names none), and it
    never has an ['error'] listener. *)
Theorem every_request_is_a_json_post (options : option options_t) (w0 : world)
    (calls : list call) :
  let s0 := new_SlackWebHook options w0 in
  let parsed := url_parse (webhookUrl (fst s0)) in
  exists reqs,
    requests (trace (snd (run_calls calls s0)))
    = (requests (trace w0) ++ reqs)%list
    /\ Forall (fun r =>
         req_method r = "POST"
         /\ req_content_type r = "application/json"
         /\ req_content_length r = byteLength (req_data r)
         /\ (exists p, req_data r = JSON_stringify p)
         /\ req_host r = url_hostname parsed
         /\ req_port r = match url_port parsed with
                         | None | Some EmptyString => PortNumber 443
                         | Some port => PortString port
                         end
         /\ req_path r = url_path parsed
         /\ req_on_error r = []) reqs.
Proof.
  intros s0 parsed.
  destruct (run_calls_frame calls s0) as (_ & _ & reqs & Hreqs & Hall).
  exists reqs. split; [exact Hreqs|].
  eapply Forall_impl; [|exact Hall].
  intros r (p & cb & ->). cbn. repeat split. now exists p.
Qed.

End Frames.

(* ===================================================================== *)
(** ** Further properties: the score over time *)
(* ===================================================================== *)

Section ScoreFacts.

Context {node : Node}.

Open Scope R_scope.

Lemma exp_le (x y : R) : x <= y -> Rtrigo_def.exp x <= Rtrigo_def.exp y.
Proof.
  intros [H| ->]; [|lra]. apply Rlt_le. now apply exp_increasing.
Qed.



Lemma seconds_between_le (a b c : Z) :
  (b <= c)%Z -> seconds_between a b <= seconds_between a c.
Proof.
  intros H. unfold seconds_between.
  assert (IZR (b - a) <= IZR (c - a)) by (apply IZR_le; lia). lra.
Qed.


(** The projection of a finite score under a finite decay constant. *)
Lemma projection_Fin (o : SlackWebHook) (t : Z) (x l : R) :
  limitSent o = Fin x -> limitLambda o = Fin l ->
  getLimitSentAtDate o t
  = Fin (x * Rtrigo_def.exp (- l * seconds_between (limitLastUpdate o) t)).
Proof. apply getLimitSentAtDate_Fin. Qed.

Lemma exceeded_at_Fin (o : SlackWebHook) (t : Z) (x l b : R) :
  limitSent o = Fin x -> limitLambda o = Fin l -> budget o = Fin b ->
  (exceeded_at o t = true
   <-> b < x * Rtrigo_def.exp (- l * seconds_between (limitLastUpdate o) t)).
Proof.
  intros Hx Hl Hb. unfold exceeded_at.
  rewrite (projection_Fin o t Hx Hl), Hb. apply gt_Fin.
Qed.

Lemma not_exceeded_at_Fin (o : SlackWebHook) (t : Z) (x l b : R) :
  limitSent o = Fin x -> limitLambda o = Fin l -> budget o = Fin b ->
  (exceeded_at o t = false
   <-> x * Rtrigo_def.exp (- l * seconds_between (limitLastUpdate o) t) <= b).
Proof.
  intros Hx Hl Hb. pose proof (exceeded_at_Fin o t Hx Hl Hb) as H.
  destruct (exceeded_at o t); split; intros; try reflexivity;
    try discriminate.
  - destruct H as [H _]. specialize (H eq_refl). lra.
  - destruct (Rle_or_lt
      (x * Rtrigo_def.exp (- l * seconds_between (limitLastUpdate o) t)) b)
      as [A|A]; [exact A|].
    apply H in A. discriminate.
Qed.

(** A non-negative score does not grow while time passes. *)
Lemma decay_le (x l s1 s2 : R) :
  0 <= x -> 0 <= l -> s1 <= s2 ->
  x * Rtrigo_def.exp (- l * s2) <= x * Rtrigo_def.exp (- l * s1).
Proof.
  intros Hx Hl Hs. apply Rmult_le_compat_l; [exact Hx|].
  apply exp_le. nra.
Qed.

Lemma mul_1_r (a : num) : JS.mul a (Fin 1) = a.
Proof.
  destruct a as [x| | |]; cbn [JS.mul]; try reflexivity.
  - f_equal. lra.
  - unfold JS.scale_inf. rewrite sign_pos by lra. reflexivity.
  - unfold JS.scale_inf. rewrite sign_pos by lra. reflexivity.
Qed.

(** X10. Under a finite decay constant, the score read at the very instant of
    an [incrementLimitSent] is the score projected just before it plus one,
    whatever that score is (finite, infinite or NaN): a send costs exactly
    one unit. *)
Theorem score_right_after_send (o : SlackWebHook) (w : world) (l : R) :
  limitLambda o = Fin l ->
  let now := now_of w in
  let s' := snd (incrementLimitSent (o, w)) in
  getLimitSentAtDate (fst s') now = JS.add (getLimitSentAtDate o now) (Fin 1).
Proof.
  intros Hl now s'. unfold s'. rewrite incrementLimitSent_run. cbn [fst snd].
  fold now. unfold getLimitSentAtDate at 1.
  cbn [recorded limitSent limitLambda limitLastUpdate set_limitLastUpdate
       set_limitSent].
  rewrite Hl, div_Fin by lra. cbn [JS.neg JS.mul JS.exp].
  replace (- l * (IZR (now - now) / 1000)) with 0
    by (rewrite Z.sub_diag; simpl; lra).
  rewrite exp_0. apply mul_1_r.
Qed.


(** X12. A transport with a finite score, a positive finite decay constant
    and a positive finite budget always recovers: there is an instant from
    which [isRateLimitExceeded] answers [false] for as long as nothing is
    sent.  Discarded messages do not put that instant off, since they leave
    the score alone. *)
Theorem limiter_recovers (o : SlackWebHook) (x l b : R) :
  limitSent o = Fin x -> limitLambda o = Fin l -> budget o = Fin b ->
  0 < l -> 0 < b ->
  exists T : Z, forall t : Z, (T <= t)%Z -> exceeded_at o t = false.
Proof.
  intros Hx Hl Hb Hl0 Hb0.
  destruct (Rle_or_lt x 0) as [Hneg|Hpos].
  - exists 0%Z. intros t _. apply (not_exceeded_at_Fin o t Hx Hl Hb).
    pose proof (exp_pos (- l * seconds_between (limitLastUpdate o) t)). nra.
  - set (K := x / (b * l)).
    assert (HK : 0 < K).
    { unfold K. apply Rdiv_lt_0_compat; [lra|now apply Rmult_lt_0_compat]. }
    exists (limitLastUpdate o + 1000 * up K)%Z. intros t Ht.
    apply (not_exceeded_at_Fin o t Hx Hl Hb).
    set (s := seconds_between (limitLastUpdate o) t).
    assert (Hs : K < s).
    { unfold s, seconds_between.
      destruct (archimed K) as [Hup _].
      assert (IZR (1000 * up K) <= IZR (t - limitLastUpdate o))
        by (apply IZR_le; lia).
      rewrite mult_IZR in H. lra. }
    assert (Hls : 0 < l * s) by (apply Rmult_lt_0_compat; lra).
    assert (Hexp : 1 + l * s <= Rtrigo_def.exp (l * s)) by apply exp_ineq1_le.
    replace (- l * s) with (- (l * s)) by ring.
    rewrite exp_Ropp.
    assert (Hbig : x < b * (1 + l * s)).
    { assert (x = K * (b * l)) by (unfold K; field; lra).
      assert (K * (b * l) < s * (b * l)).
      { apply Rmult_lt_compat_r; [now apply Rmult_lt_0_compat|exact Hs]. }
      nra. }
    assert (He : 0 < Rtrigo_def.exp (l * s)) by apply exp_pos.
    apply Rmult_le_reg_r with (Rtrigo_def.exp (l * s)); [exact He|].
    rewrite Rmult_assoc, Rinv_l by lra. nra.
Qed.

End ScoreFacts.

(* ===================================================================== *)
(** ** Further properties: runs of calls *)
(* ===================================================================== *)

Section RunFacts.

Context {node : Node}.

Open Scope R_scope.



End RunFacts.

Section Burst.

Context {node : Node}.

Variables (options : options_t) (w0 : world) (r win : R).

Hypothesis rate_given : opt_limitPerSecond options = Some (Fin r).
Hypothesis window_given : opt_limitWindowSeconds options = Some (Fin win).
Hypothesis rate_pos : (0 < r)%R.
Hypothesis window_pos : (0 < win)%R.

(** The clock does not move during the burst. *)
Hypothesis frozen : forall k : nat, clock w0 (ticks w0 + k) = clock w0 (ticks w0).


End Burst.

Section BurstClaim.

Context {node : Node}.


End BurstClaim.

(* ===================================================================== *)
(** ** Further properties: a bound on the score *)
(* ===================================================================== *)

Section ScoreBound.

Context {node : Node}.

Open Scope R_scope.

Variables (w0 : world) (l b : R).

Hypothesis clock_monotone : monotone_clock w0.
Hypothesis lambda_nonneg : 0 <= l.

(** What one accepted message does to the score, given a bound [c] on the
    score projected at the instant it is counted. *)
Lemma sent_score (p : payload_t) (callback : callback_fn) (o : SlackWebHook)
    (w : world) (x c : R) :
  clock w = clock w0 ->
  limitLambda o = Fin l -> budget o = Fin b -> limitSent o = Fin x ->
  0 <= x ->
  x * Rtrigo_def.exp (- l * seconds_between (limitLastUpdate o) (now_of w)) <= c ->
  let s' := sent p callback (o, w) in
  clock (snd s') = clock w0
  /\ ticks (snd s') = S (ticks w)
  /\ limitLambda (fst s') = Fin l
  /\ budget (fst s') = Fin b
  /\ limitNumDiscarded (fst s') = limitNumDiscarded o
  /\ limitLastUpdate (fst s') = clock w0 (ticks w)
  /\ exists x', limitSent (fst s') = Fin x' /\ 1 <= x' <= c + 1.
Proof.
  intros Hc Hl Hb Hx Hx0 Hp s'. unfold s', sent. cbn [fst snd].
  split; [exact Hc|]. split; [reflexivity|]. split; [exact Hl|].
  split; [exact Hb|]. split; [reflexivity|].
  split; [unfold now_of; cbn; now rewrite Hc|].
  cbn [recorded limitSent set_limitLastUpdate set_limitSent].
  rewrite (projection_Fin o _ Hx Hl). cbn [JS.add].
  eexists. split; [reflexivity|].
  pose proof (exp_pos (- l * seconds_between (limitLastUpdate o) (now_of w))).
  nra.
Qed.



End ScoreBound.

Section ScoreBoundClaim.

Context {node : Node}.

Open Scope R_scope.

Lemma lambda_positive (r win : R) :
  0 < r -> 0 < win -> 0 < r * ln (1 / (r * win) + 1).
Proof.
  intros Hr Hw.
  assert (Hb : 0 < r * win) by now apply Rmult_lt_0_compat.
  assert (Hu : 0 < 1 / (r * win)) by (apply Rdiv_lt_0_compat; lra).
  apply Rmult_lt_0_compat; [exact Hr|].
  rewrite <- ln_1. apply ln_increasing; lra.
Qed.


End ScoreBoundClaim.

(* ===================================================================== *)
(** ** Further properties: a stream within the allowed rate *)
(* ===================================================================== *)

Section Spaced.

Context {node : Node}.

Open Scope R_scope.

Variables (w0 : world) (r win : R).

Hypothesis rate_pos : 0 < r.
Hypothesis window_pos : 0 < win.
Hypothesis clock_monotone : monotone_clock w0.

(** Between the counting of one message and the check of the next at least
    [1 / r] seconds pass. *)
Hypothesis spaced :
  forall k : nat,
    1 / r <= seconds_between (clock w0 (ticks w0 + 2 + 2 * k))
                             (clock w0 (ticks w0 + 3 + 2 * k)).

(** One more message of the stream is let through, and the stream stays on
    schedule. *)
Lemma log_on_schedule (level msg : string) (meta : meta_arg)
    (callback : callback_fn) (k : nat) (s : state) :
  renderable meta = true ->
  on_schedule w0 (r * ln (1 / (r * win) + 1)) (r * win) k s ->
  let s' := snd (log level msg meta callback s) in
  on_schedule w0 (r * ln (1 / (r * win) + 1)) (r * win) (S k) s'
  /\ List.length (requests (trace (snd s')))
     = S (List.length (requests (trace (snd s)))).
Proof.
  intros Hmeta Hinv s'.
  assert (Hb : 0 < r * win) by now apply Rmult_lt_0_compat.
  pose proof (lambda_positive rate_pos window_pos) as Hl0.
  set (l := r * ln (1 / (r * win) + 1)) in *.
  destruct s as [o w].
  destruct Hinv as (Hc & Ht & Hl & Hbud & Hn & x & Hx & Hx0 & Hp).
  cbn [fst snd] in *.
  assert (Hex : exceeded_at o (now_of w) = false)
    by now apply (not_exceeded_at_Fin o (now_of w) Hx Hl Hbud).
  pose proof (payload_of_renderable o level msg meta) as Hpay.
  rewrite Hmeta in Hpay. destruct Hpay as (p & Hpay & _).
  assert (Hs' : s' = sent p callback (o, advance w)).
  { unfold s'. rewrite (log_accept _ _ _ _ _ _ Hex), Hpay.
    unfold flushed. cbn [fst snd]. rewrite Hn. reflexivity. }
  assert (Hp1 : x * Rtrigo_def.exp
                  (- l * seconds_between (limitLastUpdate o)
                           (now_of (advance w))) <= r * win).
  { eapply Rle_trans; [|exact Hp].
    apply decay_le; [exact Hx0|lra|].
    apply seconds_between_le. unfold now_of. cbn [advance clock ticks].
    rewrite Hc. apply clock_monotone. lia. }
  destruct (@sent_score _ w0 l (r * win) p callback o (advance w) x (r * win)
              Hc Hl Hbud Hx Hx0 Hp1)
    as (Hc1 & Ht1 & Hl1 & Hb1 & Hn1 & Hu1 & x1 & Hx1 & Hx1b).
  rewrite <- Hs' in *. split.
  - split; [exact Hc1|].
    split; [rewrite Ht1; cbn [advance ticks]; lia|].
    split; [exact Hl1|]. split; [exact Hb1|].
    split; [now rewrite Hn1|].
    exists x1. split; [exact Hx1|]. split; [lra|].
    assert (Hlast : limitLastUpdate (fst s') = clock w0 (ticks w0 + 2 + 2 * k)).
    { rewrite Hu1. cbn [advance ticks]. f_equal. lia. }
    assert (Hnow : now_of (snd s') = clock w0 (ticks w0 + 3 + 2 * k)).
    { unfold now_of. rewrite Hc1, Ht1. cbn [advance ticks]. f_equal. lia. }
    rewrite Hlast, Hnow.
    pose proof (spaced k) as Hsp.
    set (d := seconds_between (clock w0 (ticks w0 + 2 + 2 * k))
                              (clock w0 (ticks w0 + 3 + 2 * k))) in *.
    assert (Hq : Rtrigo_def.exp (- l * d) <= r * win / (1 + r * win)).
    { rewrite <- (decay_over_one_period rate_pos window_pos).
      fold l. apply exp_le. nra. }
    assert (Hq0 : 0 < Rtrigo_def.exp (- l * d)) by apply exp_pos.
    assert (Hfix : (r * win + 1) * (r * win / (1 + r * win)) = r * win)
      by (field; lra).
    apply Rle_trans with ((r * win + 1) * Rtrigo_def.exp (- l * d)).
    + apply Rmult_le_compat_r; lra.
    + rewrite <- Hfix at 2. apply Rmult_le_compat_l; lra.
  - rewrite Hs', trace_sent. cbn [fst snd advance trace].
    unfold requests. rewrite flat_map_app, length_app. cbn. lia.
Qed.

Lemma run_on_schedule (calls : list call) (k : nat) (s : state) :
  forallb is_renderable_log calls = true ->
  on_schedule w0 (r * ln (1 / (r * win) + 1)) (r * win) k s ->
  let s' := run_calls calls s in
  on_schedule w0 (r * ln (1 / (r * win) + 1)) (r * win)
    (k + List.length calls) s'
  /\ List.length (requests (trace (snd s')))
     = (List.length (requests (trace (snd s))) + List.length calls)%nat.
Proof.
  revert k s. induction calls as [|c cs IH]; intros k s Hall Hinv.
  - cbn. rewrite !Nat.add_0_r. split; [exact Hinv|reflexivity].
  - cbn [forallb] in Hall. apply andb_prop in Hall. destruct Hall as [Hc Hcs].
    destruct c as [level msg meta callback| |]; try discriminate.
    cbn [is_renderable_log] in Hc.
    destruct (@log_on_schedule level msg meta callback k s Hc Hinv)
      as [Hinv1 Hlen1].
    destruct (IH (S k) _ Hcs Hinv1) as [Hinv2 Hlen2].
    cbn [run_calls fold_left run_call List.length].
    fold (run_calls cs (snd (log level msg meta callback s))).
    cbn zeta in Hinv2, Hlen2.
    split.
    + replace (k + S (List.length cs))%nat with (S k + List.length cs)%nat
        by lia.
      exact Hinv2.
    + rewrite Hlen2, Hlen1. lia.
Qed.

End Spaced.

Section SpacedClaim.

Context {node : Node}.

Open Scope R_scope.

(** X16. A stream of messages with renderable metadata that keeps one
    millisecond under the allowed rate is never throttled: on a transport
    with finite positive limits [r] and [win] whose clock never runs
    backwards, if every message is checked at least [1 / r] seconds and one
    millisecond after the previous one was counted, then every [log] call
    issues its request, none is discarded, and no discard notice is ever
    sent, however long the stream. *)
Theorem spaced_messages_are_never_dropped (options : options_t) (w0 : world)
    (r win : R) (calls : list call) :
  opt_limitPerSecond options = Some (Fin r) ->
  opt_limitWindowSeconds options = Some (Fin win) ->
  0 < r -> 0 < win ->
  monotone_clock w0 ->
  (forall k : nat,
     1 / r + 1 / 1000
     <= seconds_between (clock w0 (ticks w0 + 2 + 2 * k))
                        (clock w0 (ticks w0 + 3 + 2 * k))) ->
  forallb is_renderable_log calls = true ->
  let s := run_calls calls (new_SlackWebHook (Some options) w0) in
  limitNumDiscarded (fst s) = 0%N
  /\ List.length (requests (trace (snd s)))
     = (List.length (requests (trace w0)) + List.length calls)%nat.
Proof.
  intros Hr Hw Hrpos Hwpos Hmono Hsp1 Hall s.
  assert (Hsp : forall k : nat,
     1 / r <= seconds_between (clock w0 (ticks w0 + 2 + 2 * k))
                              (clock w0 (ticks w0 + 3 + 2 * k))).
  { intros k. specialize (Hsp1 k). lra. }
  destruct (new_SlackWebHook_finite options w0 Hr Hw Hrpos Hwpos)
    as (Hp & Hwin & Hl & Hs & Hu).
  assert (Hb : 0 < r * win) by now apply Rmult_lt_0_compat.
  assert (Hinit : on_schedule w0 (r * ln (1 / (r * win) + 1)) (r * win) 0
                    (new_SlackWebHook (Some options) w0)).
  { split; [reflexivity|]. split; [cbn; lia|]. split; [exact Hl|].
    split; [unfold budget; now rewrite Hp, Hwin|].
    split; [reflexivity|].
    exists 0. split; [exact Hs|]. split; [lra|]. lra. }
  destruct (@run_on_schedule _ w0 r win Hrpos Hwpos Hmono Hsp calls 0 _
              Hall Hinit) as [Hinv Hlen].
  split.
  - exact (proj1 (proj2 (proj2 (proj2 (proj2 Hinv))))).
  - exact Hlen.
Qed.

End SpacedClaim.

(* ===================================================================== *)
(** ** The further properties on concrete transports *)
(* ===================================================================== *)

(** An error carrying one metadata entry. *)
Lemma sendSlackLog_one_attachment_per_entry_witness :
  let o := demo_hook (Fin 0) (Fin 0) 0 in
  let p :=
    {| text := "disk full"; payload_channel := "#ops";
       payload_username := "bot"; icon_emoji := ""; icon_url := "";
       unfurl_links := false;
       attachments :=
         Some [{| fallback := "'alice'"; att_text := "user: 'alice'";
                  color := "danger" |}] |} in
  @sendSlackLog demo_node "error" "disk full"
    (MetaObject [("user", VString "alice")]) (UserCallback 3) (o, still_world)
  = (Ok tt,
     (o, emit (Request (@slack_request demo_node o p (UserCallback 3)))
           still_world)).
Proof.
  intros o p.
  assert (Hnd : NoDup (map fst [("user", VString "alice")])).
  { constructor; [intros []|constructor]. }
  exact (proj1 (@sendSlackLog_one_attachment_per_entry demo_node "error"
                  "disk full" [("user", VString "alice")] (UserCallback 3)
                  o still_world eq_refl Hnd)).
Defined.

(** The default transport, asked at once. *)
Lemma fresh_transport_not_exceeded_witness :
  fst (isRateLimitExceeded (@new_SlackWebHook demo_node None still_world))
  = Ok false.
Proof.
  apply (@fresh_transport_not_exceeded demo_node None still_world).
  - reflexivity.
  - apply gt_Fin. lra.
Defined.

(** A score of 2 becomes 3. *)
Lemma score_right_after_send_witness :
  let o := demo_hook (Fin 1) (Fin 2) 0 in
  getLimitSentAtDate (fst (snd (incrementLimitSent (o, still_world)))) 0
  = JS.add (getLimitSentAtDate o 0) (Fin 1).
Proof.
  intros o.
  exact (@score_right_after_send o still_world 1 eq_refl).
Defined.


(** A score of 2 against a budget of 1 with decay constant 1. *)
Lemma limiter_recovers_witness :
  exists T : Z, forall t : Z,
    (T <= t)%Z -> exceeded_at (demo_hook (Fin 1) (Fin 2) 0) t = false.
Proof.
  apply (@limiter_recovers (demo_hook (Fin 1) (Fin 2) 0) 2 1 1);
    try reflexivity; try lra.
  apply demo_hook_budget.
Defined.



Lemma second_world_monotone : monotone_clock second_world.
Proof. intros i j Hij. unfold second_world. cbn [clock]. lia. Qed.


(** Three messages a second apart at two messages per second. *)
Lemma spaced_messages_are_never_dropped_witness :
  let s := @run_calls demo_node
             [CallLog "info" "one" (MetaObject []) (UserCallback 1);
              CallLog "warn" "two" (MetaObject [("n", VNull)]) (UserCallback 2);
              CallLog "error" "three" (MetaObject []) (UserCallback 3)]
             (@new_SlackWebHook demo_node
                (Some (rate_options (Some (Fin 2)) (Some (Fin 1))))
                second_world) in
  limitNumDiscarded (fst s) = 0%N
  /\ List.length (requests (trace (snd s))) = 3%nat.
Proof.
  apply (@spaced_messages_are_never_dropped demo_node
           (rate_options (Some (Fin 2)) (Some (Fin 1))) second_world 2 1);
    try reflexivity; try lra.
  - apply second_world_monotone.
  - intros k. unfold seconds_between, second_world. cbn [clock ticks].
    replace (1000 * Z.of_nat (0 + 3 + 2 * k) - 1000 * Z.of_nat (0 + 2 + 2 * k))%Z
      with 1000%Z by lia.
    lra.
Defined.
